(** * fp-ts effect cores: [State], [TaskEither] and the [number] instances

    A shallow embedding of [src/State.ts] (which holds the [State] module
    followed by the [TaskEither] module) and of [src/number.ts], and the
    properties their specification states about them.

    - A [State<S, A>] is the function [S -> A * S] it is in the source.
    - A [TaskEither<E, A>] is a thunk returning a promise of an [Either].
      Running the thunk and waiting for its promise to settle is one step
      of type [W -> Settled _ * W], where [W] is the world: everything a
      computation can observe or change (counters, logs, spies).
    - A JavaScript [number] is an IEEE 754 binary64 value, [spec_float]. *)

From Stdlib Require Import String DecimalString List ZArith Bool Arith Lia SpecFloat.
Import ListNotations.

Set Implicit Arguments.
Set Default Proof Using "Type".

(* ===================================================================== *)
(** * Part I. Definitions                                                 *)
(* ===================================================================== *)

(** ** [State.ts]: the State core *)

Module State.

(** [interface State<S, A> { (s: S): readonly [A, S] }] *)
Definition State (S A : Type) : Type := S -> A * S.

(** [get = () => (s) => [s, s]] *)
Definition get {S : Type} : State S S := fun s => (s, s).

(** [put = (s) => () => [undefined, s]] *)
Definition put {S : Type} (s : S) : State S unit := fun _ => (tt, s).

(** [modify = (f) => (s) => [undefined, f(s)]] *)
Definition modify {S : Type} (f : S -> S) : State S unit := fun s => (tt, f s).

(** [gets = (f) => (s) => [f(s), s]] *)
Definition gets {S A : Type} (f : S -> A) : State S A := fun s => (f s, s).

(** [map = (f) => (fa) => (s1) => { const [a, s2] = fa(s1); return [f(a), s2] }] *)
Definition map {S A B : Type} (f : A -> B) (fa : State S A) : State S B :=
  fun s1 => let (a, s2) := fa s1 in (f a, s2).

(** [ap = (fa) => (fab) => (s1) => { const [f, s2] = fab(s1);
      const [a, s3] = fa(s2); return [f(a), s3] }] *)
Definition ap {S A B : Type} (fa : State S A) (fab : State S (A -> B)) : State S B :=
  fun s1 => let (f, s2) := fab s1 in let (a, s3) := fa s2 in (f a, s3).

(** [of = (a) => (s) => [a, s]]  ([of] is a reserved word here, hence [of_]) *)
Definition of_ {S A : Type} (a : A) : State S A := fun s => (a, s).

(** [chain = (f) => (ma) => (s1) => { const [a, s2] = ma(s1); return f(a)(s2) }] *)
Definition chain {S A B : Type} (f : A -> State S B) (ma : State S A) : State S B :=
  fun s1 => let (a, s2) := ma s1 in f a s2.

(** [chainFirst = (f) => chain((a) => pipe(f(a), map(() => a)))] *)
Definition chainFirst {S A B : Type} (f : A -> State S B) : State S A -> State S A :=
  chain (fun a => map (fun _ => a) (f a)).

(** [flatten = chain(identity)] *)
Definition flatten {S A : Type} : State S (State S A) -> State S A :=
  chain (fun x => x).

(** [evaluate = (s) => (ma) => ma(s)[0]] *)
Definition evaluate {S A : Type} (s : S) (ma : State S A) : A := fst (ma s).

(** [execute = (s) => (ma) => ma(s)[1]] *)
Definition execute {S A : Type} (s : S) (ma : State S A) : S := snd (ma s).

(** The [for] loop of [traverseArrayWithIndex]:
<<
  let lastState = s
  const values = []
  for (let i = 0; i < arr.length; i++) {
    const [newValue, newState] = f(i, arr[i])(lastState)
    values.push(newValue)
    lastState = newState
  }
  return [values, lastState]
>>
    The loop variables [i], [values] and [lastState] are the accumulators
    of a tail-recursive function; [fuel] bounds the number of iterations
    ([arr.length] suffices, see [loop_fuel_enough]).  [arr[i]] is
    [nth_error arr i]; under the guard [i < arr.length] it is never
    [None]. *)
Fixpoint traverseLoop {A S B : Type} (f : nat -> A -> State S B) (arr : list A)
  (fuel i : nat) (values : list B) (lastState : S) : list B * S :=
  match fuel with
  | O => (values, lastState)
  | Datatypes.S fuel' =>
      if i <? length arr then
        match nth_error arr i with
        | Some x =>
            let (newValue, newState) := f i x lastState in
            traverseLoop f arr fuel' (Datatypes.S i) (values ++ [newValue]) newState
        | None => (values, lastState)
        end
      else (values, lastState)
  end.

(** [traverseArrayWithIndex = (f) => (arr) => (s) => { ...loop... }] *)
Definition traverseArrayWithIndex {A S B : Type} (f : nat -> A -> State S B)
  (arr : list A) : State S (list B) :=
  fun s => traverseLoop f arr (length arr) 0 [] s.

(** [traverseArray = (f) => traverseArrayWithIndex((_, a) => f(a))] *)
Definition traverseArray {A S B : Type} (f : A -> State S B) : list A -> State S (list B) :=
  traverseArrayWithIndex (fun _ a => f a).

(** [sequenceArray = traverseArray(identity)] *)
Definition sequenceArray {S A : Type} : list (State S A) -> State S (list A) :=
  traverseArray (fun x => x).

(** The specification's side of the state-threading property: the manual
    fold of [f] across the sequence, element [i] first, which yields the
    state reached and, separately, the values met on the way. *)
Definition indexed {A : Type} (arr : list A) : list (nat * A) :=
  combine (seq 0 (length arr)) arr.

Definition manualFold {A S B : Type} (f : nat -> A -> State S B) (arr : list A) (s0 : S) : S :=
  fold_left (fun st ia => snd (f (fst ia) (snd ia) st)) (indexed arr) s0.

(** The manual fold again, by recursion on the elements [rest] standing
    at the indices [i], [i + 1], ... ([manualFold_foldFrom]). *)
Fixpoint foldFrom {A S B : Type} (f : nat -> A -> State S B) (i : nat) (rest : list A)
  (s : S) : S :=
  match rest with
  | [] => s
  | x :: rest' => foldFrom f (Datatypes.S i) rest' (snd (f i x s))
  end.

(** The run of [f] over the elements [rest], which stand at the indices
    [i], [i + 1], ... of the array: the values produced and the state
    reached.  It is what the loop is compared with. *)
Fixpoint runFrom {A S B : Type} (f : nat -> A -> State S B) (i : nat) (rest : list A)
  (s : S) : list B * S :=
  match rest with
  | [] => ([], s)
  | x :: rest' =>
      let (b, s1) := f i x s in
      let (bs, s2) := runFrom f (Datatypes.S i) rest' s1 in
      (b :: bs, s2)
  end.

End State.

(** ** JavaScript values that cross the boundary untyped *)

(** The type [unknown] of a rejection reason.  The reasons the properties
    need are primitive values; a number is a safe integer (of magnitude
    below [2^53]), which the platform prints digit by digit. *)
Inductive unknown : Type :=
| JsUndefined
| JsNull
| JsBoolean (b : bool)
| JsNumber (z : Z)
| JsString (s : string).

(** The platform's [String] function, as used for [onRejected] in the
    source's example of [tryCatch]. *)
Definition jsString (v : unknown) : string :=
  match v with
  | JsUndefined => "undefined"
  | JsNull => "null"
  | JsBoolean true => "true"
  | JsBoolean false => "false"
  | JsNumber z => NilZero.string_of_int (Z.to_int z)
  | JsString s => s
  end.

(** ** The tagged-union result type consumed by [TaskEither] *)

Module E.

(** Modelled from the spec: the module [./Either] is missing.  The spec
    (section 6) consumes from it "success/failure constructors, a
    fold/pattern-match operation, map/bimap operations, and an
    is-success/is-failure predicate pair". *)
Inductive Either (E A : Type) : Type :=
| Left (e : E)
| Right (a : A).
Arguments Left {E A} e.
Arguments Right {E A} a.

(** Modelled from the spec: [E.left] and [E.right] of the missing
    [./Either], the "success/failure constructors". *)
Definition left {E A : Type} (e : E) : Either E A := Left e.
Definition right {E A : Type} (a : A) : Either E A := Right a.

(** Modelled from the spec: [E.isLeft] and [E.isRight] of the missing
    [./Either], the "is-success/is-failure predicate pair". *)
Definition isLeft {E A : Type} (ma : Either E A) : bool :=
  match ma with Left _ => true | Right _ => false end.

Definition isRight {E A : Type} (ma : Either E A) : bool :=
  match ma with Left _ => false | Right _ => true end.

(** Modelled from the spec: [E.fold] of the missing [./Either], the
    "fold/pattern-match operation". *)
Definition fold {E A B : Type} (onLeft : E -> B) (onRight : A -> B) (ma : Either E A) : B :=
  match ma with Left e => onLeft e | Right a => onRight a end.

(** Modelled from the spec: [E.map], [E.mapLeft] and [E.bimap] of the
    missing [./Either], the "map/bimap operations": they "transform the
    Success value, the Failure value, or both" (spec 4.2). *)
Definition map {E A B : Type} (f : A -> B) (fa : Either E A) : Either E B :=
  match fa with Left e => Left e | Right a => Right (f a) end.

Definition mapLeft {E G A : Type} (f : E -> G) (fa : Either E A) : Either G A :=
  match fa with Left e => Left (f e) | Right a => Right a end.

Definition bimap {E G A B : Type} (f : E -> G) (g : A -> B) (fa : Either E A) : Either G B :=
  match fa with Left e => Left (f e) | Right a => Right (g a) end.

(** Modelled from the spec: [E.swap] of the missing [./Either], which
    exchanges the two variants. *)
Definition swap {E A : Type} (ma : Either E A) : Either A E :=
  match ma with Left e => Right e | Right a => Left a end.

(** Modelled from the spec: [E.apW] of the missing [./Either].  Spec 4.2,
    [ap]: "if both Success, apply function to argument; if either is
    Failure, the result is the first-encountered Failure scanning [fab]
    then [fa]". *)
Definition apW {E A B : Type} (fa : Either E A) (fab : Either E (A -> B)) : Either E B :=
  match fab with
  | Left e => Left e
  | Right f => match fa with Left e => Left e | Right a => Right (f a) end
  end.

(** Modelled from the spec: [E.sequenceArray] of the missing [./Either].
    Spec 4.2, array traversal: "reduces to the first Failure encountered
    in order, else Success of all values". *)
Fixpoint sequenceArray {E A : Type} (arr : list (Either E A)) : Either E (list A) :=
  match arr with
  | [] => Right []
  | Left e :: _ => Left e
  | Right a :: rest =>
      match sequenceArray rest with
      | Left e => Left e
      | Right values => Right (a :: values)
      end
  end.

End E.

(** ** Promises and the deferred-computation primitive *)

Module T.

(** How a promise ends: fulfilled with a value or rejected with a reason.
    The model observes a promise where it settles; the spec (4.2) takes
    settlement for granted ("the underlying future must eventually
    settle"). *)
Inductive Settled (A : Type) : Type :=
| Fulfilled (a : A)
| Rejected (reason : unknown).
Arguments Fulfilled {A} a.
Arguments Rejected {A} reason.

(** Modelled from the spec: the module [./Task] is missing.  Spec 6: "a
    zero-argument callable returning a future".  Calling the thunk in the
    world [w] and waiting for the future gives how it settled and the
    world then. *)
Definition Task (W A : Type) : Type := W -> Settled A * W.

(** Modelled from the spec: [IO<A>] of the missing [./IO], a synchronous
    thunk [() => A]; [IOEither<E, A>] of [./IOEither] is
    [IO<Either<E, A>>]. *)
Definition IO (W A : Type) : Type := W -> A * W.

(** The platform's [p.then(onFulfilled)]: a rejection passes through
    untouched. *)
Definition then1 {W A B : Type} (p : Task W A) (onFulfilled : A -> B) : Task W B :=
  fun w =>
    match p w with
    | (Fulfilled a, w') => (Fulfilled (onFulfilled a), w')
    | (Rejected r, w') => (Rejected r, w')
    end.

(** The platform's [p.then(onFulfilled, onRejected)]: the result of
    whichever handler runs fulfils the new promise. *)
Definition then2 {W A B : Type} (p : Task W A) (onFulfilled : A -> B)
  (onRejected : unknown -> B) : Task W B :=
  fun w =>
    match p w with
    | (Fulfilled a, w') => (Fulfilled (onFulfilled a), w')
    | (Rejected r, w') => (Fulfilled (onRejected r), w')
    end.

(** The platform's [Promise.all(ps)]: every promise of the array has
    been started by the time [Promise.all] is called and none is
    cancelled.  The model lets them settle one after the other in index
    order and does not represent how their suspension points interleave;
    the result is the array of the values, or the rejection of the first
    rejected one. *)
Fixpoint all {W A : Type} (ps : list (Task W A)) : Task W (list A) :=
  fun w =>
    match ps with
    | [] => (Fulfilled [], w)
    | p :: rest =>
        let (r, w1) := p w in
        let (rs, w2) := all rest w1 in
        (match r, rs with
         | Fulfilled a, Fulfilled values => Fulfilled (a :: values)
         | Rejected reason, _ => Rejected reason
         | Fulfilled _, Rejected reason => Rejected reason
         end, w2)
    end.

(** The platform's [() => Promise.resolve(a)] and
    [() => Promise.reject(reason)]. *)
Definition resolve {W A : Type} (a : A) : Task W A := fun w => (Fulfilled a, w).
Definition reject {W A : Type} (reason : unknown) : Task W A := fun w => (Rejected reason, w).

(** Modelled from the spec: [T.of] of the missing [./Task].  Spec 6:
    "construction from an already-available value". *)
Definition of_ {W A : Type} (a : A) : Task W A := fun w => (Fulfilled a, w).

(** Modelled from the spec: [T.fromIO] of the missing [./Task], the
    future of a synchronous thunk's value. *)
Definition fromIO {W A : Type} (ma : IO W A) : Task W A :=
  fun w => let (a, w') := ma w in (Fulfilled a, w').

(** Modelled from the spec: [T.map] of the missing [./Task].  Spec 4.2,
    [map]: transforms the value "leaving ... the asynchronous execution
    untouched". *)
Definition map {W A B : Type} (f : A -> B) (fa : Task W A) : Task W B := then1 fa f.

(** Modelled from the spec: [T.chain] of the missing [./Task].  Spec 6:
    "must support sequencing (run-after-settlement continuation)". *)
Definition chain {W A B : Type} (f : A -> Task W B) (ma : Task W A) : Task W B :=
  fun w =>
    match ma w with
    | (Fulfilled a, w') => f a w'
    | (Rejected r, w') => (Rejected r, w')
    end.

(** Modelled from the spec: [T.ap] of the missing [./Task].  Spec 4.2,
    [ap]: "executes [fab] and [fa] as independent deferred computations
    ... then combines", neither waiting for the other's value; 5: "results
    are combined once all have settled".  Both are started, [fab] first;
    as for [all] above, the model lets [fab] settle before [fa] runs and
    does not represent how the two interleave, so what is proved of [ap]
    is what holds of every schedule: which computations run and how
    their outcomes combine. *)
Definition ap {W A B : Type} (fa : Task W A) (fab : Task W (A -> B)) : Task W B :=
  fun w =>
    let (rf, w1) := fab w in
    let (ra, w2) := fa w1 in
    (match rf, ra with
     | Fulfilled f, Fulfilled a => Fulfilled (f a)
     | Rejected reason, _ => Rejected reason
     | Fulfilled _, Rejected reason => Rejected reason
     end, w2).

(** [arr.map((x, i) => g(i, x))], from index [i] on. *)
Fixpoint mapWithIndex {A B : Type} (g : nat -> A -> B) (i : nat) (arr : list A) : list B :=
  match arr with
  | [] => []
  | x :: rest => g i x :: mapWithIndex g (S i) rest
  end.

(** Modelled from the spec: [T.traverseArrayWithIndex] of the missing
    [./Task].  Spec 4.2, array traversal: "all elements' computations
    launch without waiting for predecessors", "does not bail early; waits
    for all". *)
Definition traverseArrayWithIndex {W A B : Type} (f : nat -> A -> Task W B)
  (arr : list A) : Task W (list B) :=
  all (mapWithIndex f 0 arr).

End T.

(** ** [State.ts], second part: the TaskEither core

    A callback [f : A -> TaskEither W E B] stands for a function that is
    called and whose result is run at once, as every combinator below
    does with its callbacks ([f(a)()]): a side effect of the call itself,
    such as the counting of a spy, is part of the step [f a].  Callbacks
    are total functions: one that throws is outside the contract
    (spec 7).  The functions given to [map], [mapLeft], [bimap] and the
    predicates are pure. *)

Module TaskEither.

(** [interface TaskEither<E, A> extends Task<Either<E, A>> {}] *)
Definition TaskEither (W E A : Type) : Type := T.Task W (E.Either E A).

(** [left = flow(E.left, T.of)] *)
Definition left {W E A : Type} (e : E) : TaskEither W E A := T.of_ (E.left e).

(** [right = flow(E.right, T.of)] *)
Definition right {W E A : Type} (a : A) : TaskEither W E A := T.of_ (E.right a).

(** [rightTask = T.map(E.right)] *)
Definition rightTask {W E A : Type} (ma : T.Task W A) : TaskEither W E A :=
  T.map E.right ma.

(** [leftTask = T.map(E.left)] *)
Definition leftTask {W E A : Type} (me : T.Task W E) : TaskEither W E A :=
  T.map E.left me.

(** [rightIO = flow(T.fromIO, rightTask)] *)
Definition rightIO {W E A : Type} (ma : T.IO W A) : TaskEither W E A :=
  rightTask (T.fromIO ma).

(** [leftIO = flow(T.fromIO, leftTask)] *)
Definition leftIO {W E A : Type} (me : T.IO W E) : TaskEither W E A :=
  leftTask (T.fromIO me).

(** [fromIOEither = T.fromIO] *)
Definition fromIOEither {W E A : Type} (fa : T.IO W (E.Either E A)) : TaskEither W E A :=
  T.fromIO fa.

(** [fromEither = E.fold(left, (a) => right(a))] *)
Definition fromEither {W E A : Type} : E.Either E A -> TaskEither W E A :=
  E.fold left (fun a => right a).

(** [fromOption = (onNone) => (ma) =>
      ma._tag === 'None' ? left(onNone()) : right(ma.value)] *)
Definition fromOption {W E A : Type} (onNone : unit -> E) (ma : option A) : TaskEither W E A :=
  match ma with
  | None => left (onNone tt)
  | Some value => right value
  end.

(** [fromPredicate = (predicate, onFalse) => (a) =>
      (predicate(a) ? right(a) : left(onFalse(a)))] *)
Definition fromPredicate {W E A : Type} (predicate : A -> bool) (onFalse : A -> E)
  (a : A) : TaskEither W E A :=
  if predicate a then right a else left (onFalse a).

(** [tryCatch(f, onRejected) =
      () => f().then(E.right, (reason) => E.left(onRejected(reason)))]
    [f] is a thunk returning a promise, which may reject. *)
Definition tryCatch {W E A : Type} (f : T.Task W A) (onRejected : unknown -> E) :
  TaskEither W E A :=
  T.then2 f E.right (fun reason => E.left (onRejected reason)).

(** [fold = flow(E.fold, T.chain)] *)
Definition fold {W E A B : Type} (onLeft : E -> T.Task W B) (onRight : A -> T.Task W B) :
  TaskEither W E A -> T.Task W B :=
  T.chain (E.fold onLeft onRight).

(** [getOrElseW = (onLeft) => (ma) => pipe(ma, T.chain(E.fold(onLeft, T.of)))] *)
Definition getOrElseW {W E A : Type} (onLeft : E -> T.Task W A) (ma : TaskEither W E A) :
  T.Task W A :=
  T.chain (E.fold onLeft T.of_) ma.

(** [orElse = (f) => T.chain(E.fold(f, right))] *)
Definition orElse {W E A M : Type} (f : E -> TaskEither W M A) :
  TaskEither W E A -> TaskEither W M A :=
  T.chain (E.fold f right).

(** [swap = T.map(E.swap)] *)
Definition swap {W E A : Type} : TaskEither W E A -> TaskEither W A E :=
  T.map E.swap.

(** [map = (f) => T.map(E.map(f))] *)
Definition map {W E A B : Type} (f : A -> B) : TaskEither W E A -> TaskEither W E B :=
  T.map (E.map f).

(** [bimap = flow(E.bimap, T.map)] *)
Definition bimap {W E G A B : Type} (f : E -> G) (g : A -> B) :
  TaskEither W E A -> TaskEither W G B :=
  T.map (E.bimap f g).

(** [mapLeft = (f) => T.map(E.mapLeft(f))] *)
Definition mapLeft {W E G A : Type} (f : E -> G) : TaskEither W E A -> TaskEither W G A :=
  T.map (E.mapLeft f).

(** [apW = (fa) => flow(T.map((gab) => (ga) => E.apW(ga)(gab)), T.ap(fa))]
    The [W] variants widen the error type to the union [D | E]; with one
    error type they are the strict operations. *)
Definition apW {W E A B : Type} (fa : TaskEither W E A) (fab : TaskEither W E (A -> B)) :
  TaskEither W E B :=
  T.ap fa (T.map (fun gab => fun ga => E.apW ga gab) fab).

(** [ap = apW] *)
Definition ap {W E A B : Type} : TaskEither W E A -> TaskEither W E (A -> B) -> TaskEither W E B :=
  apW.

(** [chainW = (f) => (ma) => pipe(ma, T.chain(E.fold(left, f)))] *)
Definition chainW {W E A B : Type} (f : A -> TaskEither W E B) (ma : TaskEither W E A) :
  TaskEither W E B :=
  T.chain (E.fold left f) ma.

(** [chain = chainW] *)
Definition chain {W E A B : Type} : (A -> TaskEither W E B) -> TaskEither W E A -> TaskEither W E B :=
  chainW.

(** [filterOrElseW = (predicate, onFalse) =>
      chainW((a) => (predicate(a) ? right(a) : left(onFalse(a))))] *)
Definition filterOrElseW {W E A : Type} (predicate : A -> bool) (onFalse : A -> E) :
  TaskEither W E A -> TaskEither W E A :=
  chainW (fun a => if predicate a then right a else left (onFalse a)).

(** [tryCatchK(f, onRejected) = (...a) => tryCatch(() => f(...a), onRejected)] *)
Definition tryCatchK {W E A B : Type} (f : A -> T.Task W B) (onRejected : unknown -> E) :
  A -> TaskEither W E B :=
  fun a => tryCatch (f a) onRejected.

(** [fromEitherK(f) = (...a) => fromEither(f(...a))] *)
Definition fromEitherK {W E A B : Type} (f : A -> E.Either E B) : A -> TaskEither W E B :=
  fun a => fromEither (f a).

(** [fromIOEitherK(f) = (...a) => fromIOEither(f(...a))] *)
Definition fromIOEitherK {W E A B : Type} (f : A -> T.IO W (E.Either E B)) :
  A -> TaskEither W E B :=
  fun a => fromIOEither (f a).

(** [chainEitherKW = (f) => chainW(fromEitherK(f))] *)
Definition chainEitherKW {W E A B : Type} (f : A -> E.Either E B) :
  TaskEither W E A -> TaskEither W E B :=
  chainW (fromEitherK f).

(** [chainIOEitherKW = (f) => chainW(fromIOEitherK(f))] *)
Definition chainIOEitherKW {W E A B : Type} (f : A -> T.IO W (E.Either E B)) :
  TaskEither W E A -> TaskEither W E B :=
  chainW (fromIOEitherK f).

(** [chainFirstW = (f) => chainW((a) => pipe(f(a), map(() => a)))] *)
Definition chainFirstW {W E A B : Type} (f : A -> TaskEither W E B) :
  TaskEither W E A -> TaskEither W E A :=
  chainW (fun a => map (fun _ => a) (f a)).

(** [flatten = chain(identity)] *)
Definition flatten {W E A : Type} : TaskEither W E (TaskEither W E A) -> TaskEither W E A :=
  chain (fun x => x).

(** [altW = (second) => (first) => pipe(first, T.chain(E.fold(second, right)))]
    [second] is a [Lazy]: it ignores the failure it is called with. *)
Definition altW {W E A : Type} (second : unit -> TaskEither W E A) (first : TaskEither W E A) :
  TaskEither W E A :=
  T.chain (E.fold (fun _ => second tt) right) first.

(** [of = right] *)
Definition of_ {W E A : Type} : A -> TaskEither W E A := right.

(** [ApplicativeSeq.ap = (fa) => chain((f) => pipe(fa, map(f)))] *)
Definition apSeq {W E A B : Type} (fa : TaskEither W E A) :
  TaskEither W E (A -> B) -> TaskEither W E B :=
  chain (fun f => map f fa).

(** Modelled from the spec: the interface [Applicative2<URI>] of the
    missing [./Applicative], a record "bundling [map]/[ap]/[chain] for a
    given effect" (spec 9); here [map], [ap] and [of] for a type
    constructor of two arguments. *)
Record Applicative2 (F : Type -> Type -> Type) : Type := {
  Applicative_map : forall E A B : Type, (A -> B) -> F E A -> F E B;
  Applicative_ap : forall E A B : Type, F E A -> F E (A -> B) -> F E B;
  Applicative_of : forall E A : Type, A -> F E A
}.
Arguments Applicative_map {F} _ {E A B} _ _.
Arguments Applicative_ap {F} _ {E A B} _ _.
Arguments Applicative_of {F} _ {E A} _.

(** [ApplicativePar: Applicative2<URI> = { URI, map, ap, of }] *)
Definition ApplicativePar (W : Type) : Applicative2 (TaskEither W) :=
  {| Applicative_map := fun E A B => @map W E A B;
     Applicative_ap := fun E A B => @ap W E A B;
     Applicative_of := fun E A => @of_ W E A |}.

(** [ApplicativeSeq: Applicative2<URI> =
      { URI, map, ap: (fa) => chain((f) => pipe(fa, map(f))), of }] *)
Definition ApplicativeSeq (W : Type) : Applicative2 (TaskEither W) :=
  {| Applicative_map := fun E A B => @map W E A B;
     Applicative_ap := fun E A B => @apSeq W E A B;
     Applicative_of := fun E A => @of_ W E A |}.

(** [getAltTaskValidation(SE).alt = (second) => (first) => pipe(first,
      T.chain((e1) => E.isRight(e1) ? T.of(e1)
        : pipe(second(), T.map((e2) =>
            E.isLeft(e2) ? E.left(SE.concat(e2.left)(e1.left)) : e2))))] *)
Definition altValidation {W E A : Type} (concat : E -> E -> E)
  (second : unit -> TaskEither W E A) (first : TaskEither W E A) : TaskEither W E A :=
  T.chain (fun e1 =>
    match e1 with
    | E.Right _ => T.of_ e1
    | E.Left l1 =>
        T.map (fun e2 =>
          match e2 with
          | E.Left l2 => E.left (concat l2 l1)
          | E.Right _ => e2
          end) (second tt)
    end) first.

(** A Node-style function [f(...args, cb)], taken at the arguments it is
    given: what it does to the world and the arguments [(e, r)] it first
    calls its callback with; [e] is [None] when it is [null] or
    [undefined]. *)
Definition NodeStyle (W Args L R : Type) : Type := Args -> W -> (option L * R) * W.

(** [const cbResolver = (e, r) =>
      (e != null ? resolve(E.left(e)) : resolve(E.right(r)))] *)
Definition cbResolver {L R : Type} (e : option L) (r : R) : E.Either L R :=
  match e with
  | Some e' => E.left e'
  | None => E.right r
  end.

(** [taskify(f) = function () { const args = ...arguments
      return () => new Promise((resolve) => {
        const cbResolver = ...; f.apply(null, args.concat(cbResolver)) }) }] *)
Definition taskify {W Args L R : Type} (f : NodeStyle W Args L R) : Args -> TaskEither W L R :=
  fun args w => let '((e, r), w') := f args w in (T.Fulfilled (cbResolver e r), w').

(** [bracket = (acquire, use, release) => pipe(acquire, chain((a) =>
      pipe(pipe(use(a), T.map(E.right)), chain((e) =>
        pipe(release(a, e),
             chain(() => (E.isLeft(e) ? left(e.left) : of(e.right))))))))] *)
Definition bracket {W E A B : Type} (acquire : TaskEither W E A)
  (use : A -> TaskEither W E B)
  (release : A -> E.Either E B -> TaskEither W E unit) : TaskEither W E B :=
  chain (fun a =>
    chain (fun e =>
      chain (fun _ => match e with E.Left l => left l | E.Right r => of_ r end)
            (release a e))
      (T.map E.right (use a)))
    acquire.

(** The do notation.  The record and tuple builders [bindTo_(name)],
    [bind_(a, name, b)], [tuple] and [[...a, b]] come from [./function]
    and from the platform; they are pure and are taken as parameters.

    [bindTo = (name) => map(bindTo_(name))] *)
Definition bindTo {W E A R : Type} (bindTo_ : A -> R) : TaskEither W E A -> TaskEither W E R :=
  map bindTo_.

(** [bindW = (name, f) => chainW((a) => pipe(f(a), map((b) => bind_(a, name, b))))] *)
Definition bindW {W E A B R : Type} (bind_ : A -> B -> R) (f : A -> TaskEither W E B) :
  TaskEither W E A -> TaskEither W E R :=
  chainW (fun a => map (fun b => bind_ a b) (f a)).

(** [apSW = (name, fb) => flow(map((a) => (b) => bind_(a, name, b)), apW(fb))] *)
Definition apSW {W E A B R : Type} (bind_ : A -> B -> R) (fb : TaskEither W E B) :
  TaskEither W E A -> TaskEither W E R :=
  fun fa => apW fb (map (fun a => fun b => bind_ a b) fa).

(** [tupled = map(tuple)] *)
Definition tupled {W E A R : Type} (tuple : A -> R) : TaskEither W E A -> TaskEither W E R :=
  map tuple.

(** [apTW = (fb) => (fas) => pipe(fas, map((a) => (b) => [...a, b]), apW(fb))] *)
Definition apTW {W E A B R : Type} (append : A -> B -> R) (fb : TaskEither W E B)
  (fas : TaskEither W E A) : TaskEither W E R :=
  apW fb (map (fun a => fun b => append a b) fas).

(** [traverseArrayWithIndex = (f) => (arr) =>
      pipe(arr, T.traverseArrayWithIndex(f), T.map(E.sequenceArray))] *)
Definition traverseArrayWithIndex {W A B E : Type} (f : nat -> A -> TaskEither W E B)
  (arr : list A) : TaskEither W E (list B) :=
  T.map E.sequenceArray (T.traverseArrayWithIndex f arr).

(** [traverseArray = (f) => traverseArrayWithIndex((_, a) => f(a))] *)
Definition traverseArray {W A B E : Type} (f : A -> TaskEither W E B) :
  list A -> TaskEither W E (list B) :=
  traverseArrayWithIndex (fun _ a => f a).

(** [sequenceArray = traverseArray(identity)] *)
Definition sequenceArray {W A E : Type} : list (TaskEither W E A) -> TaskEither W E (list A) :=
  traverseArray (fun x => x).

(** The loop of [traverseSeqArrayWithIndex]:
<<
  const out = []
  for (let i = 0; i < arr.length; i++) {
    const e = await f(i, arr[i])()
    if (E.isLeft(e)) { return e }
    out.push(e.right)
  }
  return E.right(out)
>>
    [await] on a rejected promise throws, which rejects the promise of the
    [async] function.  [fuel] bounds the iterations as in
    [State.traverseLoop]. *)
Fixpoint traverseSeqLoop {W A B E : Type} (f : nat -> A -> TaskEither W E B) (arr : list A)
  (fuel i : nat) (out : list B) (w : W) : T.Settled (E.Either E (list B)) * W :=
  match fuel with
  | O => (T.Fulfilled (E.right out), w)
  | S fuel' =>
      if i <? length arr then
        match nth_error arr i with
        | Some x =>
            match f i x w with
            | (T.Fulfilled e, w') =>
                match e with
                | E.Left l => (T.Fulfilled (E.Left l), w')
                | E.Right r => traverseSeqLoop f arr fuel' (S i) (out ++ [r]) w'
                end
            | (T.Rejected reason, w') => (T.Rejected reason, w')
            end
        | None => (T.Fulfilled (E.right out), w)
        end
      else (T.Fulfilled (E.right out), w)
  end.

(** The loop again, by recursion on the elements [rest] still to visit,
    which stand at the indices [i], [i + 1], ... ([seqLoop_fuel_enough]). *)
Fixpoint seqFrom {W A B E : Type} (f : nat -> A -> TaskEither W E B) (i : nat)
  (rest : list A) (out : list B) (w : W) : T.Settled (E.Either E (list B)) * W :=
  match rest with
  | [] => (T.Fulfilled (E.right out), w)
  | x :: rest' =>
      match f i x w with
      | (T.Fulfilled (E.Left l), w') => (T.Fulfilled (E.Left l), w')
      | (T.Fulfilled (E.Right r), w') => seqFrom f (S i) rest' (out ++ [r]) w'
      | (T.Rejected reason, w') => (T.Rejected reason, w')
      end
  end.

(** [traverseSeqArrayWithIndex = (f) => (arr) => async () => { ...loop... }] *)
Definition traverseSeqArrayWithIndex {W A B E : Type} (f : nat -> A -> TaskEither W E B)
  (arr : list A) : TaskEither W E (list B) :=
  fun w => traverseSeqLoop f arr (length arr) 0 [] w.

(** [traverseSeqArray = (f) => traverseSeqArrayWithIndex((_, a) => f(a))] *)
Definition traverseSeqArray {W A B E : Type} (f : A -> TaskEither W E B) :
  list A -> TaskEither W E (list B) :=
  traverseSeqArrayWithIndex (fun _ a => f a).

(** [sequenceSeqArray = traverseSeqArray(identity)] *)
Definition sequenceSeqArray {W A E : Type} : list (TaskEither W E A) -> TaskEither W E (list A) :=
  traverseSeqArray (fun x => x).

(** The interface [Separated<A, B>] of [./Compactable], as the object
    literal [{ left, right }] that [separate] returns. *)
Record Separated (A B : Type) : Type := {
  separated_left : A;
  separated_right : B
}.

(** [getCompactable(M).separate = (fe) => ({
      left: pipe(fe, T.map(E.fold(E.left,
              E.fold((a) => E.right(a), () => E.left(M.empty))))),
      right: pipe(fe, T.map(E.fold(E.left,
              E.fold(() => E.left(M.empty), (b) => E.right(b))))) })]
    Of the monoid [M] only [M.empty] is used. *)
Definition separate {W E A B : Type} (empty : E) (fe : TaskEither W E (E.Either A B)) :
  Separated (TaskEither W E A) (TaskEither W E B) :=
  {| separated_left :=
       T.map (E.fold E.left (E.fold (fun a => E.right a) (fun _ => E.left empty))) fe;
     separated_right :=
       T.map (E.fold E.left (E.fold (fun _ => E.left empty) (fun b => E.right b))) fe |}.

End TaskEither.

(** ** [number.ts]: the instances for [number] *)

Module number.

(** A [number] is an IEEE 754 binary64 value; the well-formed ones
    satisfy [binary64].  The comparisons below are defined, and the facts
    about them hold, on every [spec_float]. *)
Definition number : Type := spec_float.

Definition binary64 (x : number) : bool := valid_binary 53 1024 x.

(** [x < y] and [x > y] on numbers. *)
Definition lt (x y : number) : bool := SFltb x y.
Definition gt (x y : number) : bool := SFltb y x.

(** Modelled from the spec: the interfaces [Eq<A>] and [Ord<A>] of the
    missing [./Eq] and [./Ord], with the members [number.ts] gives them:
    [equals], and [equals] with [compare], whose results are [-1], [0]
    and [1]. *)
Record EqOf (A : Type) : Type := { equals : A -> A -> bool }.
Record OrdOf (A : Type) : Type := { ord_equals : A -> A -> bool; compare : A -> A -> Z }.

(** Modelled from the spec: [E.eqStrict] of the missing [./Eq], "strict
    equality": [equals: (a, b) => a === b].  On numbers [===] is the IEEE
    equality: a NaN equals nothing, the two zeros are equal. *)
Definition eqStrict : EqOf number := {| equals := fun a b => SFeqb a b |}.

(** [export const Eq: E.Eq<number> = E.eqStrict] *)
Definition Eq : EqOf number := eqStrict.

(** [export const Ord: O.Ord<number> = {
      equals: Eq.equals,
      compare: (x, y) => (x < y ? -1 : x > y ? 1 : 0) }] *)
Definition Ord : OrdOf number :=
  {| ord_equals := equals Eq;
     compare := fun x y => if lt x y then (-1)%Z else if gt x y then 1%Z else 0%Z |}.

(** Where a number other than NaN stands in the order of the reals with
    the two infinities: its class first ([-Infinity], negative, zero of
    either sign, positive, [+Infinity]), then exponent and mantissa,
    negated for the negative numbers.  [lexCompare] compares two such
    keys, leftmost difference first ([SFcompare_orderKey]). *)
Definition orderKey (x : number) : Z * Z * Z :=
  match x with
  | S754_zero _ => (0, 0, 0)%Z
  | S754_infinity false => (2, 0, 0)%Z
  | S754_infinity true => (-2, 0, 0)%Z
  | S754_nan => (0, 0, 0)%Z
  | S754_finite false m e => (1, e, Zpos m)%Z
  | S754_finite true m e => (-1, - e, Zneg m)%Z
  end.

Definition lexCompare (k1 k2 : Z * Z * Z) : comparison :=
  let '(a1, b1, c1) := k1 in
  let '(a2, b2, c2) := k2 in
  match (a1 ?= a2)%Z with
  | Datatypes.Eq =>
      match (b1 ?= b2)%Z with
      | Datatypes.Eq => (c1 ?= c2)%Z
      | r => r
      end
  | r => r
  end.

(** The numbers [NaN] and [1]. *)
Definition NaN : number := S754_nan.
Definition one : number := S754_finite false 4503599627370496 (-52).

End number.

(** ** Spies and the contract of a TaskEither *)

(** A probe is a counter held somewhere in the world: [tick] is the side
    effect of a spy ([calls++]) and [hits] reads the counter. *)
Record Probe (W : Type) : Type := {
  tick : W -> W;
  hits : W -> nat;
  hits_tick : forall w, hits (tick w) = S (hits w)
}.

(** [(a) => { calls++; return f(a) }], and the same for two arguments. *)
Definition spy {W A X : Type} (p : Probe W) (f : A -> T.Task W X) : A -> T.Task W X :=
  fun a w => f a (tick p w).

Definition spy2 {W A B X : Type} (p : Probe W) (f : A -> B -> T.Task W X) :
  A -> B -> T.Task W X :=
  fun a b w => f a b (tick p w).

(** A spied thunk: [() => { calls++; return t() }]. *)
Definition spy0 {W X : Type} (p : Probe W) (t : T.Task W X) : T.Task W X :=
  fun w => t (tick p w).

(** A computation that leaves the probe's counter alone. *)
Definition quiet {W X : Type} (p : Probe W) (t : T.Task W X) : Prop :=
  forall w, hits p (snd (t w)) = hits p w.

(** The promise of [t] is fulfilled in every world: it never rejects. *)
Definition neverRejects {W X : Type} (t : T.Task W X) : Prop :=
  forall w, exists x w', t w = (T.Fulfilled x, w').

(** The TaskEither values the module's own constructors and combinators
    produce.  What the caller supplies is taken at its type: a [Task]
    never rejects, a callback is a total function, and the TaskEithers a
    callback returns are again values of the module. *)
Inductive Built (W : Type) : forall E A : Type, TaskEither.TaskEither W E A -> Prop :=
| B_left (E A : Type) (e : E) :
    @Built W E A (TaskEither.left e)
| B_right (E A : Type) (a : A) :
    @Built W E A (TaskEither.right a)
| B_of (E A : Type) (a : A) :
    @Built W E A (TaskEither.of_ a)
| B_rightTask (E A : Type) (ma : T.Task W A) :
    neverRejects ma -> @Built W E A (TaskEither.rightTask ma)
| B_leftTask (E A : Type) (me : T.Task W E) :
    neverRejects me -> @Built W E A (TaskEither.leftTask me)
| B_rightIO (E A : Type) (ma : T.IO W A) :
    @Built W E A (TaskEither.rightIO ma)
| B_leftIO (E A : Type) (me : T.IO W E) :
    @Built W E A (TaskEither.leftIO me)
| B_fromIOEither (E A : Type) (fa : T.IO W (E.Either E A)) :
    Built (TaskEither.fromIOEither fa)
| B_fromEither (E A : Type) (ma : E.Either E A) :
    Built (TaskEither.fromEither ma)
| B_fromOption (E A : Type) (onNone : unit -> E) (ma : option A) :
    Built (TaskEither.fromOption onNone ma)
| B_fromPredicate (E A : Type) (predicate : A -> bool) (onFalse : A -> E) (a : A) :
    Built (TaskEither.fromPredicate predicate onFalse a)
| B_tryCatch (E A : Type) (f : T.Task W A) (onRejected : unknown -> E) :
    Built (TaskEither.tryCatch f onRejected)
| B_tryCatchK (E A B : Type) (f : A -> T.Task W B) (onRejected : unknown -> E) (a : A) :
    Built (TaskEither.tryCatchK f onRejected a)
| B_fromEitherK (E A B : Type) (f : A -> E.Either E B) (a : A) :
    Built (TaskEither.fromEitherK f a)
| B_fromIOEitherK (E A B : Type) (f : A -> T.IO W (E.Either E B)) (a : A) :
    Built (TaskEither.fromIOEitherK f a)
| B_taskify (Args L R : Type) (f : TaskEither.NodeStyle W Args L R) (args : Args) :
    Built (TaskEither.taskify f args)
| B_orElse (E A M : Type) (f : E -> TaskEither.TaskEither W M A) ma :
    Built ma -> (forall e, Built (f e)) -> Built (TaskEither.orElse f ma)
| B_swap (E A : Type) (ma : TaskEither.TaskEither W E A) :
    Built ma -> Built (TaskEither.swap ma)
| B_filterOrElseW (E A : Type) (predicate : A -> bool) (onFalse : A -> E) ma :
    Built ma -> Built (TaskEither.filterOrElseW predicate onFalse ma)
| B_chainEitherKW (E A B : Type) (f : A -> E.Either E B) ma :
    Built ma -> Built (TaskEither.chainEitherKW f ma)
| B_chainIOEitherKW (E A B : Type) (f : A -> T.IO W (E.Either E B)) ma :
    Built ma -> Built (TaskEither.chainIOEitherKW f ma)
| B_map (E A B : Type) (f : A -> B) (fa : TaskEither.TaskEither W E A) :
    Built fa -> Built (TaskEither.map f fa)
| B_bimap (E G A B : Type) (f : E -> G) (g : A -> B) fa :
    Built fa -> Built (TaskEither.bimap f g fa)
| B_mapLeft (E G A : Type) (f : E -> G) (fa : TaskEither.TaskEither W E A) :
    Built fa -> Built (TaskEither.mapLeft f fa)
| B_apW (E A B : Type) (fa : TaskEither.TaskEither W E A) (fab : TaskEither.TaskEither W E (A -> B)) :
    Built fa -> Built fab -> Built (TaskEither.apW fa fab)
| B_apSeq (E A B : Type) (fa : TaskEither.TaskEither W E A) (fab : TaskEither.TaskEither W E (A -> B)) :
    Built fa -> Built fab -> Built (TaskEither.apSeq fa fab)
| B_chainW (E A B : Type) (f : A -> TaskEither.TaskEither W E B) ma :
    Built ma -> (forall a, Built (f a)) -> Built (TaskEither.chainW f ma)
| B_chainFirstW (E A B : Type) (f : A -> TaskEither.TaskEither W E B) ma :
    Built ma -> (forall a, Built (f a)) -> Built (TaskEither.chainFirstW f ma)
| B_flatten (E A : Type) (mma : TaskEither.TaskEither W E (TaskEither.TaskEither W E A)) :
    Built mma ->
    (forall w inner w', mma w = (T.Fulfilled (E.Right inner), w') -> Built inner) ->
    Built (TaskEither.flatten mma)
| B_altW (E A : Type) (second : unit -> TaskEither.TaskEither W E A) first :
    Built first -> Built (second tt) -> Built (TaskEither.altW second first)
| B_altValidation (E A : Type) (concat : E -> E -> E)
    (second : unit -> TaskEither.TaskEither W E A) first :
    Built first -> Built (second tt) -> Built (TaskEither.altValidation concat second first)
| B_bracket (E A B : Type) (acquire : TaskEither.TaskEither W E A)
    (use : A -> TaskEither.TaskEither W E B)
    (release : A -> E.Either E B -> TaskEither.TaskEither W E unit) :
    Built acquire -> (forall a, Built (use a)) -> (forall a e, Built (release a e)) ->
    Built (TaskEither.bracket acquire use release)
| B_bindTo (E A R : Type) (bindTo_ : A -> R) (fa : TaskEither.TaskEither W E A) :
    Built fa -> Built (TaskEither.bindTo bindTo_ fa)
| B_bindW (E A B R : Type) (bind_ : A -> B -> R) (f : A -> TaskEither.TaskEither W E B) fa :
    Built fa -> (forall a, Built (f a)) -> Built (TaskEither.bindW bind_ f fa)
| B_apSW (E A B R : Type) (bind_ : A -> B -> R) (fb : TaskEither.TaskEither W E B) fa :
    Built fb -> Built fa -> Built (TaskEither.apSW bind_ fb fa)
| B_tupled (E A R : Type) (tuple : A -> R) (fa : TaskEither.TaskEither W E A) :
    Built fa -> Built (TaskEither.tupled tuple fa)
| B_apTW (E A B R : Type) (append : A -> B -> R) (fb : TaskEither.TaskEither W E B) fas :
    Built fb -> Built fas -> Built (TaskEither.apTW append fb fas)
| B_traverseArrayWithIndex (A B E : Type) (f : nat -> A -> TaskEither.TaskEither W E B) arr :
    (forall i a, Built (f i a)) -> Built (TaskEither.traverseArrayWithIndex f arr)
| B_traverseArray (A B E : Type) (f : A -> TaskEither.TaskEither W E B) arr :
    (forall a, Built (f a)) -> Built (TaskEither.traverseArray f arr)
| B_sequenceArray (A E : Type) (arr : list (TaskEither.TaskEither W E A)) :
    (forall t, In t arr -> Built t) -> Built (TaskEither.sequenceArray arr)
| B_traverseSeqArrayWithIndex (A B E : Type) (f : nat -> A -> TaskEither.TaskEither W E B) arr :
    (forall i a, Built (f i a)) -> Built (TaskEither.traverseSeqArrayWithIndex f arr)
| B_traverseSeqArray (A B E : Type) (f : A -> TaskEither.TaskEither W E B) arr :
    (forall a, Built (f a)) -> Built (TaskEither.traverseSeqArray f arr)
| B_sequenceSeqArray (A E : Type) (arr : list (TaskEither.TaskEither W E A)) :
    (forall t, In t arr -> Built t) -> Built (TaskEither.sequenceSeqArray arr).

(** ** Concrete worlds and computations, for running the model *)

Module Examples.

(** [const add = (n: number): State<number, number> =>
      (s: number) => tuple(n, n + s)], the example of the documentation of
    [State.traverseArray]. *)
Definition add (n : nat) : State.State nat nat := fun s => (n, n + s).

(** A world with a call counter and a log of lines. *)
Definition World : Type := (nat * list string)%type.

Definition start : World := (0, []).

Definition counter : Probe World :=
  {| tick := fun w => (S (fst w), snd w);
     hits := fun w => fst w;
     hits_tick := fun w => eq_refl |}.

(** A TaskEither that writes [line] to the log and settles to [r]. *)
Definition say {E A : Type} (line : string) (r : E.Either E A) :
  TaskEither.TaskEither World E A :=
  fun w => (T.Fulfilled r, (fst w, snd w ++ [line])).

(** [(n) => n + 1] in the Success position, announcing itself. *)
Definition increment (n : nat) : TaskEither.TaskEither World string nat :=
  say "increment" (E.Right (S n)).

(** A resource is a file name: [acquire] opens it, [use] reads it and
    fails on the file ["empty"], [release] closes it. *)
Definition openFile (name : string) : TaskEither.TaskEither World string string :=
  say "open" (E.Right name).

Definition readFile (name : string) : TaskEither.TaskEither World string nat :=
  if String.eqb name "empty" then say "read" (E.Left "nothing to read"%string)
  else say "read" (E.Right (String.length name)).

Definition closeFile (name : string) (outcome : E.Either string nat) :
  TaskEither.TaskEither World string unit :=
  say "close" (E.Right tt).

(** The array [[left('a'), left('b')]] of the spec's traversal test,
    each computation leaving a line in the log when it runs. *)
Definition twoFailures : list (TaskEither.TaskEither World string nat) :=
  [say "a ran" (E.Left "a"%string); say "b ran" (E.Left "b"%string)].

(** An array whose second computation fails, between two that succeed. *)
Definition failsSecond : list (TaskEither.TaskEither World string nat) :=
  [say "t0 ran" (E.Right 1); say "t1 ran" (E.Left "x"%string); say "t2 ran" (E.Right 3)].

End Examples.

(* ===================================================================== *)
(** * Part II. Properties                                                 *)
(* ===================================================================== *)

(** ** The State core *)

Section StateFacts.

Import State.

Context {A S B : Type}.
Variable f : nat -> A -> State S B.

Lemma loop_fuel_enough (rest pre : list A) :
  forall (fuel : nat) (values : list B) (s : S),
    length rest <= fuel ->
    traverseLoop f (pre ++ rest) fuel (length pre) values s
    = (values ++ fst (runFrom f (length pre) rest s),
       snd (runFrom f (length pre) rest s)).
Proof.
  revert pre.
  induction rest as [|x rest IH]; intros pre fuel values s Hfuel.
  - rewrite !app_nil_r. destruct fuel as [|fuel]; simpl; [reflexivity|].
    rewrite Nat.ltb_irrefl. reflexivity.
  - destruct fuel as [|fuel]; simpl in Hfuel; [lia|].
    cbn [traverseLoop].
    assert (Hlt : (length pre <? length (pre ++ x :: rest)) = true).
    { apply Nat.ltb_lt. rewrite length_app. simpl. lia. }
    rewrite Hlt, nth_error_app2, Nat.sub_diag by lia.
    cbn [nth_error runFrom].
    destruct (f (length pre) x s) as [b s1].
    specialize (IH (pre ++ [x]) fuel (values ++ [b]) s1).
    rewrite <- app_assoc, length_app, Nat.add_1_r in IH. simpl in IH.
    rewrite IH by lia.
    destruct (runFrom f (Datatypes.S (length pre)) rest s1) as [bs s2].
    simpl. rewrite <- app_assoc. reflexivity.
Qed.

Lemma runFrom_state (rest : list A) :
  forall (i : nat) (s : S),
    snd (runFrom f i rest s)
    = fold_left (fun st ia => snd (f (fst ia) (snd ia) st))
        (combine (seq i (length rest)) rest) s.
Proof.
  induction rest as [|x rest IH]; intros i s; simpl; [reflexivity|].
  rewrite <- IH.
  destruct (f i x s) as [b s1]. simpl.
  destruct (runFrom f (Datatypes.S i) rest s1) as [bs s2]. reflexivity.
Qed.

Lemma runFrom_length (rest : list A) :
  forall (i : nat) (s : S), length (fst (runFrom f i rest s)) = length rest.
Proof.
  induction rest as [|x rest IH]; intros i s; simpl; [reflexivity|].
  specialize (IH (Datatypes.S i) (snd (f i x s))).
  destruct (f i x s) as [b s1]. simpl in IH.
  destruct (runFrom f (Datatypes.S i) rest s1) as [bs s2]. simpl in *. lia.
Qed.

Lemma runFrom_value (rest : list A) :
  forall (i k : nat) (s : S) (x : A),
    nth_error rest k = Some x ->
    nth_error (fst (runFrom f i rest s)) k
    = Some (fst (f (i + k) x
        (fold_left (fun st ia => snd (f (fst ia) (snd ia) st))
           (combine (seq i (length (firstn k rest))) (firstn k rest)) s))).
Proof.
  induction rest as [|y rest IH]; intros i k s x Hk.
  - destruct k; discriminate.
  - destruct k as [|k]; simpl in Hk.
    + injection Hk as ->. simpl. rewrite Nat.add_0_r.
      destruct (f i x s) as [b s1].
      destruct (runFrom f (Datatypes.S i) rest s1) as [bs s2]. reflexivity.
    + specialize (IH (Datatypes.S i) k (snd (f i y s)) x Hk).
      simpl. destruct (f i y s) as [b s1]. simpl in IH.
      destruct (runFrom f (Datatypes.S i) rest s1) as [bs s2]. simpl in *.
      rewrite IH. rewrite Nat.add_succ_r. reflexivity.
Qed.

End StateFacts.

(** C9. The monad laws of [State]: [chain(f)(of(a))] run on [s] is [f(a)]
    run on [s] (left identity); [chain(of)(ma)] run on [s] is [ma] run on
    [s] (right identity); [chain(g)(chain(f)(ma))] run on [s] is
    [chain(x => chain(g)(f(x)))(ma)] run on [s] (associativity). *)
Theorem State_monad_laws :
  forall (S A B C : Type) (a : A) (f : A -> State.State S B) (g : B -> State.State S C)
         (ma : State.State S A) (s : S),
    State.chain f (State.of_ a) s = f a s
    /\ State.chain State.of_ ma s = ma s
    /\ State.chain g (State.chain f ma) s
       = State.chain (fun x => State.chain g (f x)) ma s.
Proof.
  intros S A B C a f g ma s. unfold State.chain, State.of_.
  repeat split.
  - destruct (ma s) as [x s2]. reflexivity.
  - destruct (ma s) as [x s2]. reflexivity.
Qed.

(** C5. [traverseArrayWithIndex(f)(arr)] run on [s0] executes [f] on
    every element in index order and threads the state: the final state
    is the manual left fold of [f] across the array, the values come out
    one per element in input order, the value at index [i] being the one
    [f(i, arr[i])] produces on the state folded over the first [i]
    elements.  The loop needs no more than [arr.length] iterations.
    The same holds of [traverseArray(g)(arr)], with [g(arr[i])] for
    [f(i, arr[i])], and of [sequenceArray(ms)], with [ms[i]] itself: the
    final state is the left fold, there is one value per element, and
    the value at index [i] is the one the element produces on the state
    folded over the elements before it. *)
Theorem State_traverseArrayWithIndex_threads :
  forall (A S B : Type) (f : nat -> A -> State.State S B) (arr : list A) (s0 : S),
    snd (State.traverseArrayWithIndex f arr s0) = State.manualFold f arr s0
    /\ length (fst (State.traverseArrayWithIndex f arr s0)) = length arr
    /\ (forall (i : nat) (x : A),
          nth_error arr i = Some x ->
          nth_error (fst (State.traverseArrayWithIndex f arr s0)) i
          = Some (fst (f i x (State.manualFold f (firstn i arr) s0))))
    /\ (forall fuel : nat,
          length arr <= fuel ->
          State.traverseLoop f arr fuel 0 [] s0 = State.traverseArrayWithIndex f arr s0)
    /\ (forall g : A -> State.State S B,
          snd (State.traverseArray g arr s0) = fold_left (fun st x => snd (g x st)) arr s0
          /\ length (fst (State.traverseArray g arr s0)) = length arr
          /\ (forall (i : nat) (x : A),
                nth_error arr i = Some x ->
                nth_error (fst (State.traverseArray g arr s0)) i
                = Some (fst (g x (fold_left (fun st y => snd (g y st)) (firstn i arr) s0)))))
    /\ (forall ms : list (State.State S B),
          snd (State.sequenceArray ms s0) = fold_left (fun st m => snd (m st)) ms s0
          /\ length (fst (State.sequenceArray ms s0)) = length ms
          /\ (forall (i : nat) (m : State.State S B),
                nth_error ms i = Some m ->
                nth_error (fst (State.sequenceArray ms s0)) i
                = Some (fst (m (fold_left (fun st y => snd (y st)) (firstn i ms) s0))))).
Proof.
  intros A S B f arr s0.
  assert (Hrun : forall (X : Type) (h : nat -> X -> State.State S B) (l : list X) (fuel : nat),
             length l <= fuel ->
             State.traverseLoop h l fuel 0 [] s0
             = (fst (State.runFrom h 0 l s0), snd (State.runFrom h 0 l s0))).
  { intros X h l fuel Hfuel.
    exact (@loop_fuel_enough X S B h l [] fuel [] s0 Hfuel). }
  assert (Hfold : forall (X : Type) (k : X -> State.State S B) (l : list X) (i : nat) (s : S),
             fold_left (fun st ia => snd (k (snd ia) st)) (combine (seq i (length l)) l) s
             = fold_left (fun st x => snd (k x st)) l s).
  { intros X k l. induction l as [|y l IH]; intros i s; simpl; [reflexivity|]. apply IH. }
  assert (Hplain : forall (X : Type) (k : X -> State.State S B) (l : list X),
             snd (State.traverseArrayWithIndex (fun _ x => k x) l s0)
             = fold_left (fun st x => snd (k x st)) l s0
             /\ length (fst (State.traverseArrayWithIndex (fun _ x => k x) l s0)) = length l
             /\ (forall (i : nat) (x : X),
                   nth_error l i = Some x ->
                   nth_error (fst (State.traverseArrayWithIndex (fun _ x => k x) l s0)) i
                   = Some (fst (k x (fold_left (fun st y => snd (k y st)) (firstn i l) s0))))).
  { intros X k l. unfold State.traverseArrayWithIndex.
    rewrite (Hrun X (fun _ x => k x) l (length l) (le_n _)). cbn [fst snd].
    split; [|split].
    - rewrite runFrom_state. apply (Hfold X k).
    - apply runFrom_length.
    - intros i x Hi. rewrite (runFrom_value (fun _ y => k y) l 0 i s0 Hi).
      rewrite (Hfold X k). reflexivity. }
  split; [|split; [|split; [|split; [|split]]]].
  - unfold State.traverseArrayWithIndex.
    rewrite (Hrun A f arr (length arr) (le_n _)). cbn [snd].
    unfold State.manualFold, State.indexed. apply runFrom_state.
  - unfold State.traverseArrayWithIndex.
    rewrite (Hrun A f arr (length arr) (le_n _)). cbn [fst].
    apply runFrom_length.
  - intros i x Hi. unfold State.traverseArrayWithIndex.
    rewrite (Hrun A f arr (length arr) (le_n _)). cbn [fst].
    rewrite (runFrom_value f arr 0 i s0 Hi). reflexivity.
  - intros fuel Hfuel. unfold State.traverseArrayWithIndex.
    rewrite (Hrun A f arr (length arr) (le_n _)). apply Hrun, Hfuel.
  - intros g. exact (Hplain A g arr).
  - intros ms. exact (Hplain (State.State S B) (fun m => m) ms).
Qed.

Lemma State_traverseArrayWithIndex_threads_witness :
  snd (State.traverseArray Examples.add [1; 2; 3] 0) = 6
  /\ nth_error (fst (State.traverseArray Examples.add [1; 2; 3] 0)) 2 = Some 3
  /\ length (fst (State.sequenceArray
                    [Examples.add 1; Examples.add 2; Examples.add 3] 0)) = 3
  /\ nth_error (fst (State.sequenceArray
                       [Examples.add 1; Examples.add 2; Examples.add 3] 0)) 1 = Some 2
  /\ State.traverseLoop (fun _ n => Examples.add n) [1; 2; 3] 5 0 [] 0 = ([1; 2; 3], 6).
Proof.
  destruct (@State_traverseArrayWithIndex_threads nat nat nat
              (fun _ n => Examples.add n) [1; 2; 3] 0) as (_ & _ & _ & H4 & H5 & H6).
  destruct (H5 Examples.add) as (Hstate & _ & Hvalue).
  destruct (H6 [Examples.add 1; Examples.add 2; Examples.add 3]) as (_ & Hlen & Hnth).
  split; [exact Hstate | split; [exact (Hvalue 2 3 eq_refl) | split; [exact Hlen | split]]].
  - exact (Hnth 1 (Examples.add 2) eq_refl).
  - exact (H4 5 (le_S _ _ (le_S _ _ (le_n 3)))).
Defined.

(** ** The TaskEither core *)

(** Unfolds the combinators down to the world-passing functions. *)
Ltac te_unfold :=
  unfold TaskEither.bracket, TaskEither.bindTo, TaskEither.bindW, TaskEither.apSW,
    TaskEither.tupled, TaskEither.apTW, TaskEither.apSeq, TaskEither.filterOrElseW,
    TaskEither.chainEitherKW, TaskEither.chainIOEitherKW, TaskEither.chainFirstW,
    TaskEither.flatten, TaskEither.fromEitherK, TaskEither.fromIOEitherK,
    TaskEither.tryCatchK, TaskEither.altValidation, TaskEither.altW,
    TaskEither.orElse, TaskEither.swap, TaskEither.ap, TaskEither.apW,
    TaskEither.chain, TaskEither.chainW, TaskEither.map, TaskEither.bimap,
    TaskEither.mapLeft, TaskEither.tryCatch, TaskEither.fromPredicate,
    TaskEither.fromOption, TaskEither.fromEither, TaskEither.fromIOEither,
    TaskEither.leftIO, TaskEither.rightIO, TaskEither.leftTask, TaskEither.rightTask,
    TaskEither.taskify, TaskEither.cbResolver,
    TaskEither.of_, TaskEither.left, TaskEither.right,
    T.ap, T.chain, T.map, T.fromIO, T.then1, T.then2, T.of_, T.resolve, T.reject,
    E.fold, E.left, E.right, spy, spy2, spy0 in *.

(** C1. [chain(f)(left(e))] settles to [Failure(e)] in the world it
    started in, whatever [f] is, and a spy in place of [f] records no
    call; more generally a first computation that settles [Failure(e)]
    is the final outcome.  If the first computation settles [Success(a)],
    the outcome of [f(a)], run in the world the first one left, is the
    final outcome, and a spy on [f] records exactly one call. *)
Theorem TaskEither_chain_short_circuit :
  forall (W E A B : Type) (p : Probe W) (f : A -> TaskEither.TaskEither W E B)
         (ma : TaskEither.TaskEither W E A) (e : E) (w : W),
    (forall a, quiet p (f a)) ->
    TaskEither.chain f (TaskEither.left e) w = (T.Fulfilled (E.Left e), w)
    /\ hits p (snd (TaskEither.chain (spy p f) (TaskEither.left e) w)) = hits p w
    /\ (forall e' w1,
          ma w = (T.Fulfilled (E.Left e'), w1) ->
          TaskEither.chain f ma w = (T.Fulfilled (E.Left e'), w1)
          /\ hits p (snd (TaskEither.chain (spy p f) ma w)) = hits p w1)
    /\ (forall a w1,
          ma w = (T.Fulfilled (E.Right a), w1) ->
          TaskEither.chain f ma w = f a w1
          /\ hits p (snd (TaskEither.chain (spy p f) ma w)) = S (hits p w1)).
Proof.
  intros W E A B p f ma e w Hquiet. te_unfold.
  split; [reflexivity | split; [reflexivity | split]].
  - intros e' w1 Hma. rewrite Hma. split; reflexivity.
  - intros a w1 Hma. rewrite Hma. split; [reflexivity|].
    rewrite (Hquiet a (tick p w1)). apply hits_tick.
Qed.

Lemma TaskEither_chain_short_circuit_witness :
  TaskEither.chain Examples.increment (TaskEither.left "boom"%string) Examples.start
  = (T.Fulfilled (E.Left "boom"%string), Examples.start)
  /\ TaskEither.chain Examples.increment (Examples.say "first" (E.Right 41)) Examples.start
     = (T.Fulfilled (E.Right 42), (0, ["first"; "increment"]%string))
  /\ hits Examples.counter
       (snd (TaskEither.chain (spy Examples.counter Examples.increment)
               (Examples.say "first" (E.Right 41)) Examples.start)) = 1.
Proof.
  destruct (@TaskEither_chain_short_circuit Examples.World string nat nat
              Examples.counter Examples.increment (Examples.say "first" (E.Right 41))
              "boom"%string Examples.start (fun a w => eq_refl))
    as (H1 & _ & _ & H4).
  destruct (H4 41 (0, ["first"%string]) eq_refl) as [H5 H6].
  split; [exact H1 | split; [exact H5 | exact H6]].
Defined.

(** C2. [bracket(acquire, use, release)]: if [acquire] settles
    [Failure], that failure is the result, [use] and [release] are not
    run and a spy on [release] records no call.  If [acquire] settles
    [Success(a)] and [use(a)] settles to the outcome [u], [Success] or
    [Failure] alike, then [release(a, u)] is run next, a spy on it
    records exactly one call, and the result is [u] when [release]
    succeeds and the failure of [release] when it fails. *)
Theorem TaskEither_bracket_release_once :
  forall (W E A B : Type) (p : Probe W) (acquire : TaskEither.TaskEither W E A)
         (use : A -> TaskEither.TaskEither W E B)
         (release : A -> E.Either E B -> TaskEither.TaskEither W E unit) (w : W),
    quiet p acquire ->
    (forall a, quiet p (use a)) ->
    (forall a u, quiet p (release a u)) ->
    (forall e w1,
        acquire w = (T.Fulfilled (E.Left e), w1) ->
        TaskEither.bracket acquire use release w = (T.Fulfilled (E.Left e), w1)
        /\ hits p (snd (TaskEither.bracket acquire use (spy2 p release) w)) = hits p w)
    /\ (forall a w1 u w2,
          acquire w = (T.Fulfilled (E.Right a), w1) ->
          use a w1 = (T.Fulfilled u, w2) ->
          (forall w3,
              release a u w2 = (T.Fulfilled (E.Right tt), w3) ->
              TaskEither.bracket acquire use release w = (T.Fulfilled u, w3))
          /\ (forall er w3,
                release a u w2 = (T.Fulfilled (E.Left er), w3) ->
                TaskEither.bracket acquire use release w = (T.Fulfilled (E.Left er), w3))
          /\ hits p (snd (TaskEither.bracket acquire use (spy2 p release) w)) = S (hits p w)).
Proof.
  intros W E A B p acquire use release w Hacq Huse Hrel.
  split.
  - intros e w1 Hw. te_unfold. rewrite Hw. split; [reflexivity|].
    specialize (Hacq w). rewrite Hw in Hacq. exact Hacq.
  - intros a w1 u w2 Hw Hu.
    assert (Hw1 : hits p w1 = hits p w).
    { specialize (Hacq w). rewrite Hw in Hacq. exact Hacq. }
    assert (Hw2 : hits p w2 = hits p w1).
    { specialize (Huse a w1). rewrite Hu in Huse. exact Huse. }
    te_unfold. rewrite Hw, Hu. split; [|split].
    + intros w3 Hr. rewrite Hr. destruct u; reflexivity.
    + intros er w3 Hr. rewrite Hr. reflexivity.
    + specialize (Hrel a u (tick p w2)). rewrite hits_tick in Hrel.
      destruct (release a u (tick p w2)) as [[[er|[]]|reason] w3];
        simpl in *; [| destruct u |]; simpl; lia.
Qed.

Lemma TaskEither_bracket_release_once_witness :
  TaskEither.bracket (Examples.openFile "empty") Examples.readFile Examples.closeFile
    Examples.start
  = (T.Fulfilled (E.Left "nothing to read"%string), (0, ["open"; "read"; "close"]%string))
  /\ hits Examples.counter
       (snd (TaskEither.bracket (Examples.openFile "empty") Examples.readFile
               (spy2 Examples.counter Examples.closeFile) Examples.start)) = 1.
Proof.
  destruct (@TaskEither_bracket_release_once Examples.World string string nat
              Examples.counter (Examples.openFile "empty") Examples.readFile
              Examples.closeFile Examples.start
              (fun w => eq_refl)
              (fun a w => match String.eqb a "empty" as c
                            return (hits Examples.counter
                                      (snd ((if c then Examples.say "read" (E.Left "nothing to read"%string)
                                             else Examples.say "read" (E.Right (String.length a))) w))
                                    = hits Examples.counter w)
                          with true => eq_refl | false => eq_refl end)
              (fun a u w => eq_refl))
    as [_ H].
  destruct (H "empty"%string (0, ["open"%string]) (E.Left "nothing to read"%string)
              (0, ["open"; "read"]%string) eq_refl eq_refl) as (H1 & _ & H3).
  split; [exact (H1 (0, ["open"; "read"; "close"]%string) eq_refl) | exact H3].
Defined.

(** C6. The parallel apply [ap(fa)(fab)] starts [fab] and [fa] both.
    When both settle [Success] the result is [Success] of the function
    applied to the argument; when [fab] settles [Failure] that failure is
    the result, also when [fa] fails too; when only [fa] settles
    [Failure] its failure is the result. *)
Theorem TaskEither_ap_first_failure :
  forall (W E A B : Type) (fa : TaskEither.TaskEither W E A)
         (fab : TaskEither.TaskEither W E (A -> B)) (w w1 w2 : W)
         (gab : E.Either E (A -> B)) (ga : E.Either E A),
    fab w = (T.Fulfilled gab, w1) ->
    fa w1 = (T.Fulfilled ga, w2) ->
    TaskEither.Applicative_ap (TaskEither.ApplicativePar W) fa fab w
    = (T.Fulfilled
         match gab, ga with
         | E.Right f, E.Right a => E.Right (f a)
         | E.Left e, _ => E.Left e
         | E.Right _, E.Left e => E.Left e
         end, w2).
Proof.
  intros W E A B fa fab w w1 w2 gab ga Hfab Hfa.
  cbn [TaskEither.Applicative_ap TaskEither.ApplicativePar]. te_unfold.
  rewrite Hfab, Hfa. destruct gab, ga; reflexivity.
Qed.

Lemma TaskEither_ap_first_failure_witness :
  TaskEither.ap (Examples.say "fa" (E.Left "b"%string))
    (Examples.say "fab" (E.Left "a"%string) : TaskEither.TaskEither _ _ (nat -> nat))
    Examples.start
  = (T.Fulfilled (E.Left "a"%string), (0, ["fab"; "fa"]%string)).
Proof.
  exact (@TaskEither_ap_first_failure Examples.World string nat nat
           (Examples.say "fa" (E.Left "b"%string)) (Examples.say "fab" (E.Left "a"%string))
           Examples.start (0, ["fab"%string]) (0, ["fab"; "fa"]%string)
           (E.Left "a"%string) (E.Left "b"%string) eq_refl eq_refl).
Defined.

(** C8. [tryCatch(f, onRejected)] calls [f] once.  If the promise it
    returns fulfils with [a] the result settles [Success(a)]; if it
    rejects with the reason [r] the result settles
    [Failure(onRejected(r))].  In particular
    [tryCatch(() => Promise.resolve(1), String)] settles [Success(1)] and
    [tryCatch(() => Promise.reject('x'), String)] settles [Failure('x')]. *)
Theorem TaskEither_tryCatch_boundary :
  forall (W E A : Type) (p : Probe W) (f : T.Task W A) (onRejected : unknown -> E) (w : W),
    quiet p f ->
    (forall a w1,
        f w = (T.Fulfilled a, w1) ->
        TaskEither.tryCatch f onRejected w = (T.Fulfilled (E.Right a), w1))
    /\ (forall r w1,
          f w = (T.Rejected r, w1) ->
          TaskEither.tryCatch f onRejected w = (T.Fulfilled (E.Left (onRejected r)), w1))
    /\ hits p (snd (TaskEither.tryCatch (spy0 p f) onRejected w)) = S (hits p w)
    /\ TaskEither.tryCatch (T.resolve number.one) jsString w
       = (T.Fulfilled (E.Right number.one), w)
    /\ TaskEither.tryCatch (T.reject (JsString "x") : T.Task W number.number) jsString w
       = (T.Fulfilled (E.Left "x"%string), w).
Proof.
  intros W E A p f onRejected w Hquiet. te_unfold.
  split; [|split; [|split; [|split; reflexivity]]].
  - intros a w1 Hf. rewrite Hf. reflexivity.
  - intros r w1 Hf. rewrite Hf. reflexivity.
  - specialize (Hquiet (tick p w)). rewrite hits_tick in Hquiet.
    destruct (f (tick p w)) as [[a|r] w1]; exact Hquiet.
Qed.

Lemma TaskEither_tryCatch_boundary_witness :
  TaskEither.tryCatch (T.reject (JsNumber 404) : T.Task Examples.World nat) jsString
    Examples.start
  = (T.Fulfilled (E.Left "404"%string), Examples.start)
  /\ hits Examples.counter
       (snd (TaskEither.tryCatch
               (spy0 Examples.counter (T.reject (JsNumber 404) : T.Task Examples.World nat))
               jsString Examples.start)) = 1.
Proof.
  destruct (@TaskEither_tryCatch_boundary Examples.World string nat Examples.counter
              (T.reject (JsNumber 404)) jsString Examples.start (fun w => eq_refl))
    as (_ & H2 & H3 & _).
  split; [exact (H2 (JsNumber 404) Examples.start eq_refl) | exact H3].
Defined.

(** ** Array traversals of TaskEither *)

Lemma manualFold_foldFrom (A S B : Type) (f : nat -> A -> State.State S B) (l : list A) :
  forall (i : nat) (s : S),
    fold_left (fun st ia => snd (f (fst ia) (snd ia) st)) (combine (seq i (length l)) l) s
    = State.foldFrom f i l s.
Proof.
  induction l as [|x l IH]; intros i s; simpl; [reflexivity | apply IH].
Qed.

Lemma E_sequenceArray_first_failure (E B : Type) (rs : list (E.Either E B)) :
  (exists i e,
      nth_error rs i = Some (E.Left e)
      /\ (forall j, j < i -> exists b, nth_error rs j = Some (E.Right b))
      /\ E.sequenceArray rs = E.Left e)
  \/ (exists bs, rs = List.map E.Right bs /\ E.sequenceArray rs = E.Right bs).
Proof.
  induction rs as [|[e|b] rs IH].
  - right. exists []. split; reflexivity.
  - left. exists 0, e. split; [reflexivity | split; [intros j Hj; lia | reflexivity]].
  - destruct IH as [(i & e & Hi & Hbefore & Hseq) | (bs & Hbs & Hseq)].
    + left. exists (S i), e. split; [exact Hi | split].
      * intros [|j] Hj; [exists b; reflexivity | apply Hbefore; lia].
      * simpl. rewrite Hseq. reflexivity.
    + right. exists (b :: bs). split; [simpl; congruence | simpl; rewrite Hseq; reflexivity].
Qed.

Section TraverseFacts.

Context {W A B E : Type}.
Variable g : nat -> A -> TaskEither.TaskEither W E B.

Lemma all_fulfilled (arr : list A) :
  forall (i : nat) (w : W),
    (forall k x, nth_error arr k = Some x -> neverRejects (g (i + k) x)) ->
    exists rs,
      T.all (T.mapWithIndex g i arr) w = (T.Fulfilled rs, State.foldFrom g i arr w)
      /\ length rs = length arr
      /\ (forall k x,
            nth_error arr k = Some x ->
            exists r,
              nth_error rs k = Some r
              /\ fst (g (i + k) x (State.foldFrom g i (firstn k arr) w)) = T.Fulfilled r).
Proof.
  induction arr as [|x arr IH]; intros i w Hnr.
  - exists []. split; [reflexivity | split; [reflexivity|]].
    intros [|k] y Hk; discriminate.
  - destruct (Hnr 0 x eq_refl w) as (r & w1 & Hg). rewrite Nat.add_0_r in Hg.
    destruct (IH (S i) w1) as (rs & Hall & Hlen & Hnth).
    { intros k y Hk. specialize (Hnr (S k) y Hk). rewrite Nat.add_succ_r in Hnr. exact Hnr. }
    exists (r :: rs). simpl. rewrite Hg, Hall. simpl.
    split; [reflexivity | split; [congruence|]].
    intros [|k] y Hk; simpl in Hk.
    + injection Hk as <-. exists r. rewrite Nat.add_0_r. simpl. rewrite Hg.
      split; reflexivity.
    + destruct (Hnth k y Hk) as (r' & Hr' & Hval).
      exists r'. simpl. rewrite Hg. simpl. rewrite Nat.add_succ_r.
      split; assumption.
Qed.

Lemma seqLoop_fuel_enough (rest pre : list A) :
  forall (fuel : nat) (out : list B) (w : W),
    length rest <= fuel ->
    TaskEither.traverseSeqLoop g (pre ++ rest) fuel (length pre) out w
    = TaskEither.seqFrom g (length pre) rest out w.
Proof.
  revert pre.
  induction rest as [|x rest IH]; intros pre fuel out w Hfuel.
  - rewrite app_nil_r. destruct fuel as [|fuel]; simpl; [reflexivity|].
    rewrite Nat.ltb_irrefl. reflexivity.
  - destruct fuel as [|fuel]; simpl in Hfuel; [lia|].
    cbn [TaskEither.traverseSeqLoop TaskEither.seqFrom].
    assert (Hlt : (length pre <? length (pre ++ x :: rest)) = true).
    { apply Nat.ltb_lt. rewrite length_app. simpl. lia. }
    rewrite Hlt, nth_error_app2, Nat.sub_diag by lia.
    cbn [nth_error].
    destruct (g (length pre) x w) as [[[l|r]|reason] w1]; try reflexivity.
    specialize (IH (pre ++ [x]) fuel (out ++ [r]) w1).
    rewrite <- app_assoc, length_app, Nat.add_1_r in IH. simpl in IH.
    apply IH. lia.
Qed.

Lemma seqFrom_first_failure (rest : list A) :
  forall (i k : nat) (x : A) (e : E) (wk : W) (out : list B) (w : W),
    nth_error rest k = Some x ->
    (forall j y,
        j < k -> nth_error rest j = Some y ->
        exists b, fst (g (i + j) y (State.foldFrom g i (firstn j rest) w))
                  = T.Fulfilled (E.Right b)) ->
    g (i + k) x (State.foldFrom g i (firstn k rest) w) = (T.Fulfilled (E.Left e), wk) ->
    TaskEither.seqFrom g i rest out w = (T.Fulfilled (E.Left e), wk).
Proof.
  induction rest as [|y0 rest IH]; intros i k x e wk out w Hk Hbefore Hfail.
  - destruct k; discriminate.
  - destruct k as [|k]; simpl in Hk.
    + injection Hk as ->. simpl in Hfail. rewrite Nat.add_0_r in Hfail.
      simpl. rewrite Hfail. reflexivity.
    + destruct (Hbefore 0 y0 (Nat.lt_0_succ k) eq_refl) as (b & Hb).
      simpl in Hb. rewrite Nat.add_0_r in Hb.
      simpl. simpl in Hfail. rewrite Nat.add_succ_r in Hfail.
      destruct (g i y0 w) as [r0 w1] eqn:Hg. simpl in Hb, Hfail. subst r0.
      apply (IH (S i) k x e wk (out ++ [b]) w1 Hk); [|exact Hfail].
      intros j y Hj Hy.
      assert (Hsj : S j < S k) by lia.
      destruct (Hbefore (S j) y Hsj Hy) as (b' & Hb').
      exists b'. simpl in Hb'. rewrite Nat.add_succ_r, Hg in Hb'. exact Hb'.
Qed.

Lemma seqFrom_all_succeed (rest : list A) :
  forall (i : nat) (out : list B) (w : W),
    (forall j y,
        nth_error rest j = Some y ->
        exists b, fst (g (i + j) y (State.foldFrom g i (firstn j rest) w))
                  = T.Fulfilled (E.Right b)) ->
    exists bs,
      TaskEither.seqFrom g i rest out w
      = (T.Fulfilled (E.Right (out ++ bs)), State.foldFrom g i rest w)
      /\ length bs = length rest
      /\ (forall j y,
            nth_error rest j = Some y ->
            exists b,
              nth_error bs j = Some b
              /\ fst (g (i + j) y (State.foldFrom g i (firstn j rest) w))
                 = T.Fulfilled (E.Right b)).
Proof.
  induction rest as [|y0 rest IH]; intros i out w Hall.
  - exists []. rewrite app_nil_r. split; [reflexivity | split; [reflexivity|]].
    intros [|j] y Hj; discriminate.
  - destruct (Hall 0 y0 eq_refl) as (b & Hb). simpl in Hb. rewrite Nat.add_0_r in Hb.
    destruct (IH (S i) (out ++ [b]) (snd (g i y0 w))) as (bs & Hrun & Hlen & Hnth).
    { intros j y Hj. destruct (Hall (S j) y Hj) as (b' & Hb').
      exists b'. simpl in Hb'. rewrite Nat.add_succ_r in Hb'. exact Hb'. }
    exists (b :: bs). simpl.
    destruct (g i y0 w) as [r0 w1] eqn:Hg. simpl in *. subst r0.
    rewrite Hrun, <- app_assoc. simpl.
    split; [reflexivity | split; [congruence|]].
    intros [|j] y Hj; simpl in Hj.
    + injection Hj as <-. exists b. rewrite Nat.add_0_r. simpl. rewrite Hg.
      split; reflexivity.
    + destruct (Hnth j y Hj) as (b' & Hb' & Hval). exists b'.
      rewrite Nat.add_succ_r. simpl. rewrite Hg. split; assumption.
Qed.

End TraverseFacts.

Lemma spy_fold_hits (W A X : Type) (p : Probe W) (f : nat -> A -> T.Task W X) (l : list A) :
  forall (i : nat) (w : W),
    (forall k x, nth_error l k = Some x -> quiet p (f (i + k) x)) ->
    hits p (State.foldFrom (spy2 p f) i l w) = hits p w + length l.
Proof.
  induction l as [|x l IH]; intros i w Hquiet; simpl; [lia|].
  rewrite IH.
  - specialize (Hquiet 0 x eq_refl (tick p w)). rewrite Nat.add_0_r in Hquiet.
    unfold spy2. rewrite Hquiet, hits_tick. lia.
  - intros k y Hk. specialize (Hquiet (S k) y Hk).
    rewrite Nat.add_succ_r in Hquiet. exact Hquiet.
Qed.

Lemma manualFold_without_index (X S Y : Type) (k : X -> State.State S Y) (l : list X) (s : S) :
  State.manualFold (fun _ x => k x) l s = fold_left (fun st x => snd (k x st)) l s.
Proof.
  unfold State.manualFold, State.indexed. generalize 0 as i. revert s.
  induction l as [|y l IH]; intros s i; simpl; [reflexivity | apply IH].
Qed.

Lemma fold_left_over_map (X Y Z : Type) (f : Z -> Y -> Z) (g : X -> Y) (l : list X) :
  forall z : Z, fold_left f (List.map g l) z = fold_left (fun v x => f v (g x)) l z.
Proof.
  induction l as [|x l IH]; intros z; simpl; [reflexivity | apply IH].
Qed.

Lemma In_firstn_In (X : Type) (i : nat) (l : list X) (x : X) :
  In x (firstn i l) -> In x l.
Proof.
  intros Hx. rewrite <- (firstn_skipn i l). apply in_or_app. left. exact Hx.
Qed.

Lemma hits_fold_left_spied (W X Y : Type) (p : Probe W) (k : X -> T.Task W Y) (l : list X) :
  forall w : W,
    (forall x, In x l -> quiet p (k x)) ->
    hits p (fold_left (fun v x => snd (k x (tick p v))) l w) = hits p w + length l.
Proof.
  induction l as [|x l IH]; intros w Hquiet; simpl; [lia|].
  rewrite IH.
  - rewrite (Hquiet x (or_introl eq_refl) (tick p w)), hits_tick. lia.
  - intros y Hy. apply Hquiet. right. exact Hy.
Qed.

(** The outcomes of a parallel traversal by index: every element has
    run, and the result is read off the outcomes in index order. *)
Lemma traverseArrayWithIndex_settles_all :
  forall (W A B E : Type) (g : nat -> A -> TaskEither.TaskEither W E B)
         (arr : list A) (w : W),
    (forall i a, nth_error arr i = Some a -> neverRejects (g i a)) ->
    exists rs : list (E.Either E B),
      T.traverseArrayWithIndex g arr w = (T.Fulfilled rs, State.manualFold g arr w)
      /\ length rs = length arr
      /\ (forall i x,
            nth_error arr i = Some x ->
            exists r,
              nth_error rs i = Some r
              /\ fst (g i x (State.manualFold g (firstn i arr) w)) = T.Fulfilled r)
      /\ TaskEither.traverseArrayWithIndex g arr w
         = (T.Fulfilled (E.sequenceArray rs), State.manualFold g arr w)
      /\ ((exists i e,
              nth_error rs i = Some (E.Left e)
              /\ (forall j, j < i -> exists b, nth_error rs j = Some (E.Right b))
              /\ E.sequenceArray rs = E.Left e)
          \/ (exists bs, rs = List.map E.Right bs /\ E.sequenceArray rs = E.Right bs))
      /\ (forall (p : Probe W) (f : nat -> A -> TaskEither.TaskEither W E B),
            g = spy2 p f ->
            (forall i a, nth_error arr i = Some a -> quiet p (f i a)) ->
            hits p (State.manualFold g arr w) = hits p w + length arr).
Proof.
  intros W A B E g arr w Hnr.
  destruct (all_fulfilled g arr 0 w Hnr) as (rs & Hall & Hlen & Hnth).
  assert (Hfold : forall l, State.manualFold g l w = State.foldFrom g 0 l w).
  { intros l. apply manualFold_foldFrom. }
  exists rs. rewrite !Hfold.
  split; [exact Hall | split; [exact Hlen | split; [|split; [|split]]]].
  - intros i x Hi. rewrite Hfold. apply (Hnth i x Hi).
  - unfold TaskEither.traverseArrayWithIndex, T.traverseArrayWithIndex, T.map, T.then1.
    unfold TaskEither.TaskEither in *. rewrite Hall. reflexivity.
  - apply E_sequenceArray_first_failure.
  - intros p f -> Hquiet. apply spy_fold_hits, Hquiet.
Qed.


(** C3. The parallel traversals [traverseArrayWithIndex(f)(arr)],
    [traverseArray(h)(arr)] and [sequenceArray(ts)] do not bail out: the
    computation of every element runs, failed predecessors or not, so
    the world at the end is the one folded over all the elements and a
    spy on the callback (for [sequenceArray], on every computation of the
    array) records [arr.length] calls.  With [rs] the outcomes of the
    elements in index order, the result is the first [Failure] of [rs]
    if there is one, and otherwise [Success] of all the values in input
    order. *)
Theorem TaskEither_traverseArray_runs_all :
  forall (W A B E : Type),
    (forall (g : nat -> A -> TaskEither.TaskEither W E B) (arr : list A) (w : W),
        (forall i a, nth_error arr i = Some a -> neverRejects (g i a)) ->
        exists rs : list (E.Either E B),
          T.traverseArrayWithIndex g arr w = (T.Fulfilled rs, State.manualFold g arr w)
          /\ length rs = length arr
          /\ (forall i x,
                nth_error arr i = Some x ->
                exists r,
                  nth_error rs i = Some r
                  /\ fst (g i x (State.manualFold g (firstn i arr) w)) = T.Fulfilled r)
          /\ TaskEither.traverseArrayWithIndex g arr w
             = (T.Fulfilled (E.sequenceArray rs), State.manualFold g arr w)
          /\ ((exists i e,
                  nth_error rs i = Some (E.Left e)
                  /\ (forall j, j < i -> exists b, nth_error rs j = Some (E.Right b))
                  /\ E.sequenceArray rs = E.Left e)
              \/ (exists bs, rs = List.map E.Right bs /\ E.sequenceArray rs = E.Right bs))
          /\ (forall (p : Probe W) (f : nat -> A -> TaskEither.TaskEither W E B),
                g = spy2 p f ->
                (forall i a, nth_error arr i = Some a -> quiet p (f i a)) ->
                hits p (State.manualFold g arr w) = hits p w + length arr))
    /\ (forall (h : A -> TaskEither.TaskEither W E B) (arr : list A) (w : W),
          (forall a, In a arr -> neverRejects (h a)) ->
          exists rs : list (E.Either E B),
            TaskEither.traverseArray h arr w
            = (T.Fulfilled (E.sequenceArray rs), fold_left (fun v a => snd (h a v)) arr w)
            /\ length rs = length arr
            /\ (forall i x,
                  nth_error arr i = Some x ->
                  exists r,
                    nth_error rs i = Some r
                    /\ fst (h x (fold_left (fun v a => snd (h a v)) (firstn i arr) w))
                       = T.Fulfilled r)
            /\ ((exists i e,
                    nth_error rs i = Some (E.Left e)
                    /\ (forall j, j < i -> exists b, nth_error rs j = Some (E.Right b))
                    /\ E.sequenceArray rs = E.Left e)
                \/ (exists bs, rs = List.map E.Right bs /\ E.sequenceArray rs = E.Right bs))
            /\ (forall (p : Probe W) (h0 : A -> TaskEither.TaskEither W E B),
                  h = spy p h0 ->
                  (forall a, In a arr -> quiet p (h0 a)) ->
                  hits p (fold_left (fun v a => snd (h a v)) arr w) = hits p w + length arr))
    /\ (forall (ts : list (TaskEither.TaskEither W E B)) (w : W),
          (forall t, In t ts -> neverRejects t) ->
          exists rs : list (E.Either E B),
            TaskEither.sequenceArray ts w
            = (T.Fulfilled (E.sequenceArray rs), fold_left (fun v t => snd (t v)) ts w)
            /\ length rs = length ts
            /\ (forall i t,
                  nth_error ts i = Some t ->
                  exists r,
                    nth_error rs i = Some r
                    /\ fst (t (fold_left (fun v u => snd (u v)) (firstn i ts) w))
                       = T.Fulfilled r)
            /\ ((exists i e,
                    nth_error rs i = Some (E.Left e)
                    /\ (forall j, j < i -> exists b, nth_error rs j = Some (E.Right b))
                    /\ E.sequenceArray rs = E.Left e)
                \/ (exists bs, rs = List.map E.Right bs /\ E.sequenceArray rs = E.Right bs))
            /\ (forall (p : Probe W) (ts0 : list (TaskEither.TaskEither W E B)),
                  ts = List.map (spy0 p) ts0 ->
                  (forall t, In t ts0 -> quiet p t) ->
                  hits p (fold_left (fun v t => snd (t v)) ts w) = hits p w + length ts)).
Proof.
  intros W A B E.
  assert (Hplain : forall (X : Type) (h : X -> TaskEither.TaskEither W E B)
                          (arr : list X) (w : W),
             (forall a, In a arr -> neverRejects (h a)) ->
             exists rs : list (E.Either E B),
               TaskEither.traverseArrayWithIndex (fun _ a => h a) arr w
               = (T.Fulfilled (E.sequenceArray rs), fold_left (fun v a => snd (h a v)) arr w)
               /\ length rs = length arr
               /\ (forall i x,
                     nth_error arr i = Some x ->
                     exists r,
                       nth_error rs i = Some r
                       /\ fst (h x (fold_left (fun v a => snd (h a v)) (firstn i arr) w))
                          = T.Fulfilled r)
               /\ ((exists i e,
                       nth_error rs i = Some (E.Left e)
                       /\ (forall j, j < i -> exists b, nth_error rs j = Some (E.Right b))
                       /\ E.sequenceArray rs = E.Left e)
                   \/ (exists bs, rs = List.map E.Right bs
                                  /\ E.sequenceArray rs = E.Right bs))).
  { intros X h arr w Hnr.
    destruct (@traverseArrayWithIndex_settles_all W X B E (fun _ a => h a) arr w)
      as (rs & _ & Hlen & Hnth & Hres & Hfirst & _).
    { intros i a Ha. apply Hnr. exact (nth_error_In arr i Ha). }
    exists rs.
    rewrite (manualFold_without_index h arr w) in Hres.
    split; [exact Hres | split; [exact Hlen | split; [|exact Hfirst]]].
    intros i x Hi. destruct (Hnth i x Hi) as (r & Hr & Hval).
    exists r. rewrite (manualFold_without_index h (firstn i arr) w) in Hval.
    split; assumption. }
  split; [|split].
  - intros g arr w Hnr. exact (traverseArrayWithIndex_settles_all g arr w Hnr).
  - intros h arr w Hnr.
    destruct (Hplain A h arr w Hnr) as (rs & Hres & Hlen & Hnth & Hfirst).
    exists rs.
    split; [exact Hres | split; [exact Hlen | split; [exact Hnth | split; [exact Hfirst|]]]].
    intros p h0 -> Hquiet. exact (@hits_fold_left_spied W A _ p h0 arr w Hquiet).
  - intros ts w Hnr.
    destruct (Hplain _ (fun t : TaskEither.TaskEither W E B => t) ts w Hnr)
      as (rs & Hres & Hlen & Hnth & Hfirst).
    exists rs.
    split; [exact Hres | split; [exact Hlen | split; [exact Hnth | split; [exact Hfirst|]]]].
    intros p ts0 -> Hquiet.
    rewrite fold_left_over_map, length_map.
    exact (@hits_fold_left_spied W _ _ p (fun t => t) ts0 w Hquiet).
Qed.

Lemma TaskEither_traverseArray_runs_all_witness :
  TaskEither.sequenceArray Examples.twoFailures Examples.start
  = (T.Fulfilled (E.Left "a"%string), (0, ["a ran"; "b ran"]%string))
  /\ hits Examples.counter
       (snd (TaskEither.sequenceArray
               (List.map (spy0 Examples.counter) Examples.twoFailures) Examples.start))
     = 2.
Proof.
  destruct (@TaskEither_traverseArray_runs_all Examples.World nat nat string)
    as (_ & _ & Hseq).
  split.
  - destruct (Hseq Examples.twoFailures Examples.start)
      as (rs & Hres & Hlen & Hnth & _).
    { intros t [<- | [<- | []]]; intros w; eexists; eexists; reflexivity. }
    destruct (Hnth 0 _ eq_refl) as (r & Hr & Hval).
    destruct rs as [|r0 rs]; [discriminate Hr|].
    injection Hr as ->. injection Hval as <-.
    rewrite Hres. reflexivity.
  - destruct (Hseq (List.map (spy0 Examples.counter) Examples.twoFailures) Examples.start)
      as (rs & Hres & _ & _ & _ & Hcount).
    { intros t [<- | [<- | []]]; intros w; eexists; eexists; reflexivity. }
    rewrite Hres.
    apply (Hcount Examples.counter Examples.twoFailures eq_refl).
    intros t [<- | [<- | []]]; intros w; reflexivity.
Defined.

(** The sequential traversal by index: where it stops and what it
    returns. *)
Lemma traverseSeqArrayWithIndex_bails_out :
  forall (W A B E : Type) (g : nat -> A -> TaskEither.TaskEither W E B)
         (arr : list A) (w : W),
    (forall i x e wi,
        nth_error arr i = Some x ->
        (forall j y,
            j < i -> nth_error arr j = Some y ->
            exists b, fst (g j y (State.manualFold g (firstn j arr) w))
                      = T.Fulfilled (E.Right b)) ->
        g i x (State.manualFold g (firstn i arr) w) = (T.Fulfilled (E.Left e), wi) ->
        TaskEither.traverseSeqArrayWithIndex g arr w = (T.Fulfilled (E.Left e), wi)
        /\ (forall (p : Probe W) (f : nat -> A -> TaskEither.TaskEither W E B),
              g = spy2 p f ->
              (forall j a, nth_error arr j = Some a -> quiet p (f j a)) ->
              hits p wi = hits p w + S i))
    /\ ((forall j y,
            nth_error arr j = Some y ->
            exists b, fst (g j y (State.manualFold g (firstn j arr) w))
                      = T.Fulfilled (E.Right b)) ->
        exists bs,
          TaskEither.traverseSeqArrayWithIndex g arr w
          = (T.Fulfilled (E.Right bs), State.manualFold g arr w)
          /\ length bs = length arr
          /\ (forall j y,
                nth_error arr j = Some y ->
                exists b,
                  nth_error bs j = Some b
                  /\ fst (g j y (State.manualFold g (firstn j arr) w))
                     = T.Fulfilled (E.Right b)))
    /\ (forall fuel,
          length arr <= fuel ->
          TaskEither.traverseSeqLoop g arr fuel 0 [] w
          = TaskEither.traverseSeqArrayWithIndex g arr w).
Proof.
  intros W A B E g arr w.
  assert (Hfold : forall l, State.manualFold g l w = State.foldFrom g 0 l w).
  { intros l. apply manualFold_foldFrom. }
  assert (Hloop : forall fuel, length arr <= fuel ->
            TaskEither.traverseSeqLoop g arr fuel 0 [] w = TaskEither.seqFrom g 0 arr [] w).
  { intros fuel Hfuel. exact (@seqLoop_fuel_enough W A B E g arr [] fuel [] w Hfuel). }
  unfold TaskEither.traverseSeqArrayWithIndex.
  rewrite (Hloop (length arr) (le_n _)).
  split; [|split].
  - intros i x e wi Hi Hbefore Hfail. split.
    + apply (@seqFrom_first_failure W A B E g arr 0 i x e wi [] w Hi).
      * intros j y Hj Hy. destruct (Hbefore j y Hj Hy) as (b & Hb).
        exists b. rewrite Hfold in Hb. exact Hb.
      * rewrite Hfold in Hfail. exact Hfail.
    + intros p f -> Hquiet.
      rewrite Hfold in Hfail. unfold spy2 at 1 in Hfail.
      assert (Hlen : length (firstn i arr) = i).
      { apply firstn_length_le, Nat.lt_le_incl, nth_error_Some. congruence. }
      pose proof (Hquiet i x Hi (tick p (State.foldFrom (spy2 p f) 0 (firstn i arr) w))) as Hq.
      rewrite Hfail in Hq. simpl in Hq. rewrite Hq, hits_tick, spy_fold_hits, Hlen.
      * lia.
      * intros k y Hk. apply Hquiet. simpl.
        rewrite <- (firstn_skipn i arr). rewrite nth_error_app1; [exact Hk|].
        apply nth_error_Some. congruence.
  - intros Hall.
    destruct (@seqFrom_all_succeed W A B E g arr 0 [] w) as (bs & Hrun & Hlen & Hnth).
    { intros j y Hy. destruct (Hall j y Hy) as (b & Hb).
      exists b. rewrite Hfold in Hb. exact Hb. }
    exists bs. rewrite Hfold.
    split; [exact Hrun | split; [exact Hlen|]].
    intros j y Hy. rewrite Hfold. apply (Hnth j y Hy).
  - intros fuel Hfuel. apply Hloop, Hfuel.
Qed.


(** C4. The sequential traversals [traverseSeqArrayWithIndex(f)(arr)],
    [traverseSeqArray(h)(arr)] and [sequenceSeqArray(ts)] run the
    computation of element [i] in the world the elements before it left
    when they settled.  If the elements before [i] succeed and element
    [i] settles [Failure(e)], the traversal settles [Failure(e)] in the
    very world element [i] left: no later element runs, and a spy on the
    callback (for [sequenceSeqArray], on every computation of the array)
    has recorded [i + 1] calls.  If every element succeeds, the result
    is [Success] of the values in input order.  The loop needs no more
    than [arr.length] iterations. *)
Theorem TaskEither_traverseSeqArray_bails_out :
  forall (W A B E : Type),
    (forall (g : nat -> A -> TaskEither.TaskEither W E B) (arr : list A) (w : W),
        (forall i x e wi,
            nth_error arr i = Some x ->
            (forall j y,
                j < i -> nth_error arr j = Some y ->
                exists b, fst (g j y (State.manualFold g (firstn j arr) w))
                          = T.Fulfilled (E.Right b)) ->
            g i x (State.manualFold g (firstn i arr) w) = (T.Fulfilled (E.Left e), wi) ->
            TaskEither.traverseSeqArrayWithIndex g arr w = (T.Fulfilled (E.Left e), wi)
            /\ (forall (p : Probe W) (f : nat -> A -> TaskEither.TaskEither W E B),
                  g = spy2 p f ->
                  (forall j a, nth_error arr j = Some a -> quiet p (f j a)) ->
                  hits p wi = hits p w + S i))
        /\ ((forall j y,
                nth_error arr j = Some y ->
                exists b, fst (g j y (State.manualFold g (firstn j arr) w))
                          = T.Fulfilled (E.Right b)) ->
            exists bs,
              TaskEither.traverseSeqArrayWithIndex g arr w
              = (T.Fulfilled (E.Right bs), State.manualFold g arr w)
              /\ length bs = length arr
              /\ (forall j y,
                    nth_error arr j = Some y ->
                    exists b,
                      nth_error bs j = Some b
                      /\ fst (g j y (State.manualFold g (firstn j arr) w))
                         = T.Fulfilled (E.Right b)))
        /\ (forall fuel,
              length arr <= fuel ->
              TaskEither.traverseSeqLoop g arr fuel 0 [] w
              = TaskEither.traverseSeqArrayWithIndex g arr w))
    /\ (forall (h : A -> TaskEither.TaskEither W E B) (arr : list A) (w : W),
          (forall i x e wi,
              nth_error arr i = Some x ->
              (forall j y,
                  j < i -> nth_error arr j = Some y ->
                  exists b,
                    fst (h y (fold_left (fun v a => snd (h a v)) (firstn j arr) w))
                    = T.Fulfilled (E.Right b)) ->
              h x (fold_left (fun v a => snd (h a v)) (firstn i arr) w)
              = (T.Fulfilled (E.Left e), wi) ->
              TaskEither.traverseSeqArray h arr w = (T.Fulfilled (E.Left e), wi)
              /\ (forall (p : Probe W) (h0 : A -> TaskEither.TaskEither W E B),
                    h = spy p h0 ->
                    (forall a, In a arr -> quiet p (h0 a)) ->
                    hits p wi = hits p w + S i))
          /\ ((forall j y,
                  nth_error arr j = Some y ->
                  exists b,
                    fst (h y (fold_left (fun v a => snd (h a v)) (firstn j arr) w))
                    = T.Fulfilled (E.Right b)) ->
              exists bs,
                TaskEither.traverseSeqArray h arr w
                = (T.Fulfilled (E.Right bs), fold_left (fun v a => snd (h a v)) arr w)
                /\ length bs = length arr
                /\ (forall j y,
                      nth_error arr j = Some y ->
                      exists b,
                        nth_error bs j = Some b
                        /\ fst (h y (fold_left (fun v a => snd (h a v)) (firstn j arr) w))
                           = T.Fulfilled (E.Right b))))
    /\ (forall (ts : list (TaskEither.TaskEither W E B)) (w : W),
          (forall i x e wi,
              nth_error ts i = Some x ->
              (forall j y,
                  j < i -> nth_error ts j = Some y ->
                  exists b,
                    fst (y (fold_left (fun v u => snd (u v)) (firstn j ts) w))
                    = T.Fulfilled (E.Right b)) ->
              x (fold_left (fun v u => snd (u v)) (firstn i ts) w)
              = (T.Fulfilled (E.Left e), wi) ->
              TaskEither.sequenceSeqArray ts w = (T.Fulfilled (E.Left e), wi)
              /\ (forall (p : Probe W) (ts0 : list (TaskEither.TaskEither W E B)),
                    ts = List.map (spy0 p) ts0 ->
                    (forall t, In t ts0 -> quiet p t) ->
                    hits p wi = hits p w + S i))
          /\ ((forall j y,
                  nth_error ts j = Some y ->
                  exists b,
                    fst (y (fold_left (fun v u => snd (u v)) (firstn j ts) w))
                    = T.Fulfilled (E.Right b)) ->
              exists bs,
                TaskEither.sequenceSeqArray ts w
                = (T.Fulfilled (E.Right bs), fold_left (fun v u => snd (u v)) ts w)
                /\ length bs = length ts
                /\ (forall j y,
                      nth_error ts j = Some y ->
                      exists b,
                        nth_error bs j = Some b
                        /\ fst (y (fold_left (fun v u => snd (u v)) (firstn j ts) w))
                           = T.Fulfilled (E.Right b)))).
Proof.
  intros W A B E.
  assert (Hplain : forall (X : Type) (h : X -> TaskEither.TaskEither W E B)
                          (arr : list X) (w : W),
             (forall i x e wi,
                 nth_error arr i = Some x ->
                 (forall j y,
                     j < i -> nth_error arr j = Some y ->
                     exists b,
                       fst (h y (fold_left (fun v a => snd (h a v)) (firstn j arr) w))
                       = T.Fulfilled (E.Right b)) ->
                 h x (fold_left (fun v a => snd (h a v)) (firstn i arr) w)
                 = (T.Fulfilled (E.Left e), wi) ->
                 TaskEither.traverseSeqArrayWithIndex (fun _ a => h a) arr w
                 = (T.Fulfilled (E.Left e), wi))
             /\ ((forall j y,
                     nth_error arr j = Some y ->
                     exists b,
                       fst (h y (fold_left (fun v a => snd (h a v)) (firstn j arr) w))
                       = T.Fulfilled (E.Right b)) ->
                 exists bs,
                   TaskEither.traverseSeqArrayWithIndex (fun _ a => h a) arr w
                   = (T.Fulfilled (E.Right bs), fold_left (fun v a => snd (h a v)) arr w)
                   /\ length bs = length arr
                   /\ (forall j y,
                         nth_error arr j = Some y ->
                         exists b,
                           nth_error bs j = Some b
                           /\ fst (h y (fold_left (fun v a => snd (h a v))
                                          (firstn j arr) w))
                              = T.Fulfilled (E.Right b)))).
  { intros X h arr w.
    destruct (@traverseSeqArrayWithIndex_bails_out W X B E (fun _ a => h a) arr w)
      as (Hfail & Hall & _).
    split.
    - intros i x e wi Hi Hbefore Hx.
      apply (Hfail i x e wi Hi).
      + intros j y Hj Hy. destruct (Hbefore j y Hj Hy) as (b & Hb).
        exists b. rewrite (manualFold_without_index h (firstn j arr) w). exact Hb.
      + rewrite (manualFold_without_index h (firstn i arr) w). exact Hx.
    - intros Hok.
      destruct Hall as (bs & Hres & Hlen & Hnth).
      { intros j y Hy. destruct (Hok j y Hy) as (b & Hb).
        exists b. rewrite (manualFold_without_index h (firstn j arr) w). exact Hb. }
      exists bs. rewrite (manualFold_without_index h arr w) in Hres.
      split; [exact Hres | split; [exact Hlen|]].
      intros j y Hy. destruct (Hnth j y Hy) as (b & Hb & Hval).
      exists b. rewrite (manualFold_without_index h (firstn j arr) w) in Hval.
      split; assumption. }
  split; [|split].
  - intros g arr w. exact (traverseSeqArrayWithIndex_bails_out g arr w).
  - intros h arr w. destruct (Hplain A h arr w) as [Hfail Hall].
    split; [|exact Hall].
    intros i x e wi Hi Hbefore Hx.
    split; [exact (Hfail i x e wi Hi Hbefore Hx)|].
    intros p h0 -> Hquiet. unfold spy in Hx.
    assert (Hlen : length (firstn i arr) = i).
    { apply firstn_length_le, Nat.lt_le_incl, nth_error_Some. congruence. }
    pose proof (Hquiet x (nth_error_In arr i Hi)
                  (tick p (fold_left (fun v a => snd (h0 a (tick p v))) (firstn i arr) w)))
      as Hq.
    rewrite Hx in Hq. simpl in Hq.
    rewrite Hq, hits_tick, (@hits_fold_left_spied W A _ p h0 (firstn i arr) w), Hlen;
      [lia|].
    intros a Ha. apply Hquiet. exact (In_firstn_In i arr a Ha).
  - intros ts w.
    destruct (Hplain _ (fun t : TaskEither.TaskEither W E B => t) ts w) as [Hfail Hall].
    split; [|exact Hall].
    intros i x e wi Hi Hbefore Hx.
    split; [exact (Hfail i x e wi Hi Hbefore Hx)|].
    intros p ts0 -> Hquiet.
    unfold TaskEither.TaskEither in *.
    rewrite nth_error_map in Hi.
    destruct (nth_error ts0 i) as [t0|] eqn:Hi0; simpl in Hi; [|discriminate Hi].
    injection Hi as <-.
    rewrite firstn_map, fold_left_over_map in Hx. unfold spy0 in Hx. cbv beta in Hx.
    assert (Hlen : length (firstn i ts0) = i).
    { apply firstn_length_le, Nat.lt_le_incl, nth_error_Some. congruence. }
    assert (Hprefix : forall t, In t (firstn i ts0) -> quiet p t).
    { intros t Ht. apply Hquiet. exact (In_firstn_In i ts0 t Ht). }
    match type of Hx with
    | t0 (tick p ?before) = _ =>
        assert (Hc : hits p before = hits p w + length (firstn i ts0))
          by exact (@hits_fold_left_spied W _ _ p (fun t => t) (firstn i ts0) w Hprefix);
        pose proof (Hquiet t0 (nth_error_In ts0 i Hi0) (tick p before)) as Hq
    end.
    rewrite Hx in Hq. cbn [snd] in Hq.
    rewrite hits_tick, Hc, Hlen in Hq. rewrite Hq. lia.
Qed.

Lemma TaskEither_traverseSeqArray_bails_out_witness :
  TaskEither.sequenceSeqArray Examples.failsSecond Examples.start
  = (T.Fulfilled (E.Left "x"%string), (0, ["t0 ran"; "t1 ran"]%string))
  /\ hits Examples.counter
       (snd (TaskEither.sequenceSeqArray
               (List.map (spy0 Examples.counter) Examples.failsSecond) Examples.start))
     = 2
  /\ TaskEither.traverseSeqArray Examples.increment [1; 2] Examples.start
     = (T.Fulfilled (E.Right [2; 3]), (0, ["increment"; "increment"]%string)).
Proof.
  destruct (@TaskEither_traverseSeqArray_bails_out Examples.World nat nat string)
    as (_ & Htrav & Hseq).
  split; [|split].
  - destruct (Hseq Examples.failsSecond Examples.start) as [Hfail _].
    destruct (Hfail 1 (Examples.say "t1 ran" (E.Left "x"%string)) "x"%string
                (0, ["t0 ran"; "t1 ran"]%string) eq_refl) as [Hres _];
      [|reflexivity | exact Hres].
    intros [|j] y Hj Hy; [|inversion Hj as [|k Hk]; inversion Hk].
    injection Hy as <-. exists 1. reflexivity.
  - destruct (Hseq (List.map (spy0 Examples.counter) Examples.failsSecond) Examples.start)
      as [Hfail _].
    destruct (Hfail 1 (spy0 Examples.counter (Examples.say "t1 ran" (E.Left "x"%string)))
                "x"%string (2, ["t0 ran"; "t1 ran"]%string) eq_refl) as [Hres Hcount];
      [|reflexivity|].
    + intros [|j] y Hj Hy; [|inversion Hj as [|k Hk]; inversion Hk].
      injection Hy as <-. exists 1. reflexivity.
    + rewrite Hres.
      apply (Hcount Examples.counter Examples.failsSecond eq_refl).
      intros t [<- | [<- | [<- | []]]]; intros w; reflexivity.
  - destruct (Htrav Examples.increment [1; 2] Examples.start) as [_ Hall].
    destruct Hall as (bs & Hres & Hlen & Hnth).
    { intros [|[|[|j]]] y Hy; try discriminate; injection Hy as <-;
        eexists; reflexivity. }
    destruct (Hnth 0 1 eq_refl) as (b0 & Hb0 & Hv0).
    destruct (Hnth 1 2 eq_refl) as (b1 & Hb1 & Hv1).
    destruct bs as [|c0 [|c1 [|c2 bs]]]; try discriminate Hlen.
    injection Hb0 as ->. injection Hb1 as ->.
    injection Hv0 as <-. injection Hv1 as <-.
    exact Hres.
Defined.

(** ** No rejection through the module's machinery *)

Section NeverRejects.

Context {W : Type}.

Lemma nr_of (A : Type) (a : A) : neverRejects (T.of_ (W := W) a).
Proof. intros w. exists a, w. reflexivity. Qed.

Lemma nr_fromIO (A : Type) (ma : T.IO W A) : neverRejects (T.fromIO ma).
Proof.
  intros w. unfold T.fromIO. destruct (ma w) as [a w']. exists a, w'. reflexivity.
Qed.

Lemma nr_map (A B : Type) (f : A -> B) (t : T.Task W A) :
  neverRejects t -> neverRejects (T.map f t).
Proof.
  intros Ht w. destruct (Ht w) as (a & w' & Hw).
  exists (f a), w'. unfold T.map, T.then1. rewrite Hw. reflexivity.
Qed.

Lemma nr_then2 (A B : Type) (p : T.Task W A) (onFulfilled : A -> B)
  (onRejected : unknown -> B) :
  neverRejects (T.then2 p onFulfilled onRejected).
Proof.
  intros w. unfold T.then2. destruct (p w) as [[a|r] w'].
  - exists (onFulfilled a), w'. reflexivity.
  - exists (onRejected r), w'. reflexivity.
Qed.

Lemma nr_chain_settled (A B : Type) (k : A -> T.Task W B) (t : T.Task W A) :
  neverRejects t ->
  (forall w a w', t w = (T.Fulfilled a, w') -> neverRejects (k a)) ->
  neverRejects (T.chain k t).
Proof.
  intros Ht Hk w. destruct (Ht w) as (a & w' & Hw).
  destruct (Hk w a w' Hw w') as (b & w'' & Hb).
  exists b, w''. unfold T.chain. rewrite Hw. exact Hb.
Qed.

Lemma nr_all (A : Type) (ps : list (T.Task W A)) :
  (forall t, In t ps -> neverRejects t) -> neverRejects (T.all ps).
Proof.
  induction ps as [|p ps IH]; intros Hps w.
  - exists [], w. reflexivity.
  - destruct (Hps p (or_introl eq_refl) w) as (a & w1 & Ha).
    destruct (IH (fun t Ht => Hps t (or_intror Ht)) w1) as (values & w2 & Hrest).
    exists (a :: values), w2. simpl. rewrite Ha, Hrest. reflexivity.
Qed.

Lemma In_mapWithIndex (A B : Type) (g : nat -> A -> B) (arr : list A) :
  forall (i : nat) (b : B),
    In b (T.mapWithIndex g i arr) -> exists j a, In a arr /\ b = g j a.
Proof.
  induction arr as [|x arr IH]; intros i b Hb; simpl in Hb; [contradiction|].
  destruct Hb as [<- | Hb].
  - exists i, x. split; [left; reflexivity | reflexivity].
  - destruct (IH (S i) b Hb) as (j & a & Ha & ->).
    exists j, a. split; [right; exact Ha | reflexivity].
Qed.

Lemma nr_seqFrom (A B E : Type) (g : nat -> A -> TaskEither.TaskEither W E B)
  (rest : list A) :
  (forall j a, In a rest -> neverRejects (g j a)) ->
  forall (i : nat) (out : list B) (w : W),
    exists r w', TaskEither.seqFrom g i rest out w = (T.Fulfilled r, w').
Proof.
  induction rest as [|x rest IH]; intros Hg i out w.
  - exists (E.right out), w. reflexivity.
  - destruct (Hg i x (or_introl eq_refl) w) as ([l|r] & w1 & Hx); simpl; rewrite Hx.
    + exists (E.Left l), w1. reflexivity.
    + apply IH. intros j a Ha. apply Hg. right. exact Ha.
Qed.

Lemma nr_traverseSeq (A B E : Type) (g : nat -> A -> TaskEither.TaskEither W E B)
  (arr : list A) :
  (forall j a, In a arr -> neverRejects (g j a)) ->
  neverRejects (TaskEither.traverseSeqArrayWithIndex g arr).
Proof.
  intros Hg w. unfold TaskEither.traverseSeqArrayWithIndex.
  pose proof (@seqLoop_fuel_enough W A B E g arr [] (length arr) [] w (le_n _)) as Hrun.
  simpl in Hrun. rewrite Hrun. apply nr_seqFrom, Hg.
Qed.

Lemma nr_traverse (A B E : Type) (g : nat -> A -> TaskEither.TaskEither W E B)
  (arr : list A) :
  (forall j a, In a arr -> neverRejects (g j a)) ->
  neverRejects (TaskEither.traverseArrayWithIndex g arr).
Proof.
  intros Hg. unfold TaskEither.traverseArrayWithIndex, T.traverseArrayWithIndex.
  apply nr_map, nr_all. intros t Ht.
  destruct (In_mapWithIndex g arr 0 t Ht) as (j & a & Ha & ->). apply Hg, Ha.
Qed.

End NeverRejects.

(** One step of running a combinator whose parts never reject: use what
    is known of a part that is run, or split on the value matched on. *)
Ltac nr_step :=
  match goal with
  | |- exists x w', (_, _) = (T.Fulfilled x, w') => eexists; eexists; reflexivity
  | H : neverRejects ?t |- context [?t ?w] =>
      let Hx := fresh "Hx" in
      destruct (H w) as (? & ? & Hx); rewrite Hx; clear Hx
  | H : forall a, neverRejects (?f a) |- context [?f ?a ?w] =>
      let Hx := fresh "Hx" in
      destruct (H a w) as (? & ? & Hx); rewrite Hx; clear Hx
  | H : forall a b, neverRejects (?f a b) |- context [?f ?a ?b ?w] =>
      let Hx := fresh "Hx" in
      destruct (H a b w) as (? & ? & Hx); rewrite Hx; clear Hx
  | |- context [match ?x with _ => _ end] => destruct x
  | |- context [if ?x then _ else _] => destruct x
  end.

(** C7. Every TaskEither value produced by the module's constructors and
    combinators returns, when invoked, a promise that is fulfilled with
    an [Either]: it never rejects, a failure is delivered as the
    [Failure] value.  The user-supplied callbacks are total functions
    (they do not throw); a rejection of the promise handed to [tryCatch]
    is turned into a [Failure]. *)
Theorem TaskEither_never_rejects :
  forall (W E A : Type) (t : TaskEither.TaskEither W E A),
    Built t -> neverRejects t.
Proof.
  intros W E A t Ht.
  induction Ht.
  all: try solve [intros w; te_unfold; repeat nr_step].
  - apply nr_map, nr_fromIO.
  - apply nr_map, nr_fromIO.
  - apply nr_chain_settled; [assumption|].
    intros w [e|inner] w' Hw; [apply nr_of | eauto].
  - apply nr_traverse; auto.
  - apply nr_traverse; auto.
  - apply nr_traverse; auto.
  - apply nr_traverseSeq; auto.
  - apply nr_traverseSeq; auto.
  - apply nr_traverseSeq; auto.
Qed.

Lemma TaskEither_never_rejects_witness :
  neverRejects
    (TaskEither.chainW
       (fun n : nat =>
          TaskEither.tryCatch
            (T.reject (JsNumber (Z.of_nat n)) : T.Task Examples.World nat) jsString)
       (TaskEither.right 7)).
Proof.
  apply TaskEither_never_rejects.
  apply B_chainW; [apply B_right | intros a; apply B_tryCatch].
Defined.

(** ** The instances for [number] *)

Lemma SFcompare_antisym (x y : spec_float) :
  SFcompare y x = option_map CompOpp (SFcompare x y).
Proof.
  destruct x as [sx|sx| |sx mx ex], y as [sy|sy| |sy my ey];
    try reflexivity;
    try (destruct sx; reflexivity);
    try (destruct sy; reflexivity);
    try (destruct sx, sy; reflexivity).
  assert (Hm : Pos.compare_cont Datatypes.Eq my mx
               = CompOpp (Pos.compare_cont Datatypes.Eq mx my)).
  { symmetry. exact (Pos.compare_cont_antisym mx my Datatypes.Eq). }
  simpl. destruct sx, sy; try reflexivity; simpl;
    rewrite (Z.compare_antisym ex ey);
    destruct (ex ?= ey)%Z; simpl; try reflexivity;
    rewrite Hm; try rewrite CompOpp_involutive; reflexivity.
Qed.

(** The two numbers used below are well-formed binary64 values. *)
Example NaN_and_one_are_numbers :
  number.binary64 number.NaN = true /\ number.binary64 number.one = true.
Proof. split; reflexivity. Qed.

(** C10, as the code has it.  [Ord.compare(x, y)] is [-1] when [x < y],
    [1] when [x > y] and [0] otherwise.  When neither [x] nor [y] is
    [NaN], [Ord.compare(x, y) = 0] holds exactly when [Eq.equals(x, y)]
    is true; [Eq.equals(x, y)] always implies [Ord.compare(x, y) = 0];
    when [x] or [y] is [NaN], [Ord.compare(x, y)] is [0] although
    [Eq.equals(x, y)] is false. *)
Theorem number_Ord_Eq_coherent_without_NaN :
  forall x y : number.number,
    (number.lt x y = true -> number.compare number.Ord x y = (-1)%Z)
    /\ (number.gt x y = true -> number.compare number.Ord x y = 1%Z)
    /\ (number.lt x y = false -> number.gt x y = false ->
        number.compare number.Ord x y = 0%Z)
    /\ (x <> number.NaN -> y <> number.NaN ->
        (number.compare number.Ord x y = 0%Z <-> number.equals number.Eq x y = true))
    /\ (number.equals number.Eq x y = true -> number.compare number.Ord x y = 0%Z)
    /\ (x = number.NaN \/ y = number.NaN ->
        number.compare number.Ord x y = 0%Z /\ number.equals number.Eq x y = false).
Proof.
  intros x y.
  unfold number.Ord, number.Eq, number.eqStrict, number.lt, number.gt, number.NaN,
    SFltb, SFeqb.
  cbn [number.compare number.equals].
  rewrite (SFcompare_antisym x y).
  split; [|split; [|split; [|split; [|split]]]].
  - intros H. destruct (SFcompare x y) as [[]|]; try discriminate; reflexivity.
  - destruct (SFcompare x y) as [[]|]; simpl; intros H; try discriminate; reflexivity.
  - destruct (SFcompare x y) as [[]|]; simpl; intros H1 H2; try discriminate; reflexivity.
  - intros Hx Hy.
    assert (Hsome : SFcompare x y <> None).
    { destruct x as [sx|sx| |sx mx ex], y as [sy|sy| |sy my ey];
        try discriminate; contradiction. }
    destruct (SFcompare x y) as [[]|]; simpl; split; intros H;
      try discriminate; try reflexivity; contradiction.
  - destruct (SFcompare x y) as [[]|]; simpl; intros H; try discriminate; reflexivity.
  - intros [-> | ->]; [split; reflexivity|].
    destruct x; split; reflexivity.
Qed.

Lemma number_Ord_Eq_coherent_without_NaN_witness :
  (number.compare number.Ord number.one number.one = 0%Z
   <-> number.equals number.Eq number.one number.one = true)
  /\ number.compare number.Ord number.NaN number.one = 0%Z.
Proof.
  destruct (number_Ord_Eq_coherent_without_NaN number.one number.one)
    as (_ & _ & _ & H & _).
  destruct (number_Ord_Eq_coherent_without_NaN number.NaN number.one)
    as (_ & _ & _ & _ & _ & H').
  split; [apply H; discriminate | apply H'; left; reflexivity].
Defined.

(** C10, as stated, fails at [x = NaN], [y = 1]: [Ord.compare(NaN, 1)] is
    [0] and [Eq.equals(NaN, 1)] is false. *)
Lemma number_Ord_Eq_incoherent_at_NaN :
  ~ (number.compare number.Ord number.NaN number.one = 0%Z
     <-> number.equals number.Eq number.NaN number.one = true).
Proof.
  intros [H _]. specialize (H eq_refl). discriminate H.
Qed.


(* ===================================================================== *)
(** * Part III. Further properties of the code                            *)
(* ===================================================================== *)

(** ** State: laws of the combinators *)

(** X1. [State.map] is a functor: mapping the identity changes nothing,
    mapping a composition is mapping twice, and mapping over [of(a)] is
    [of(f(a))].  Each equation holds for the run on every state. *)
Theorem State_map_functor_laws :
  forall (S A B C : Type) (f : A -> B) (g : B -> C) (fa : State.State S A) (a : A) (s : S),
    State.map (fun x => x) fa s = fa s
    /\ State.map (fun x => g (f x)) fa s = State.map g (State.map f fa) s
    /\ State.map f (State.of_ a) s = State.of_ (f a) s.
Proof.
  intros S A B C f g fa a s. unfold State.map, State.of_.
  destruct (fa s) as [x s2]. repeat split.
Qed.

(** X2. [State.ap] agrees with the monad: [ap(fa)(fab)] is
    [chain((f) => map(f)(fa))(fab)], so [fab] runs first and [fa] runs on
    the state [fab] leaves; [ap(fa)(of(f))] is [map(f)(fa)] and
    [ap(of(a))(of(f))] is [of(f(a))]. *)
Theorem State_ap_is_chain_map :
  forall (S A B : Type) (fa : State.State S A) (fab : State.State S (A -> B))
         (f : A -> B) (a : A) (s : S),
    State.ap fa fab s = State.chain (fun h => State.map h fa) fab s
    /\ State.execute s (State.ap fa fab) = State.execute (State.execute s fab) fa
    /\ State.ap fa (State.of_ f) s = State.map f fa s
    /\ State.ap (State.of_ a) (State.of_ f) s = State.of_ (f a) s.
Proof.
  intros S A B fa fab f a s.
  unfold State.ap, State.chain, State.map, State.execute, State.of_.
  destruct (fab s) as [h s2]. simpl. destruct (fa s2) as [x s3].
  repeat split.
Qed.

(** X3. The state primitives obey the usual laws: [get] after [put(s')]
    yields [s'] and leaves it in place; putting back what [get] read
    changes nothing; of two [put]s the second wins; [modify(f)] is [get]
    followed by [put(f(s))]; [gets(f)] is [map(f)(get())]. *)
Theorem State_get_put_laws :
  forall (S A : Type) (f : S -> S) (h : S -> A) (s s1 s2 : S),
    State.chain (fun _ => State.get) (State.put s1) s = (s1, s1)
    /\ State.chain State.put State.get s = (tt, s)
    /\ State.chain (fun _ => State.put s2) (State.put s1) s = State.put s2 s
    /\ State.modify f s = State.chain (fun x => State.put (f x)) State.get s
    /\ State.gets h s = State.map h State.get s.
Proof.
  intros. repeat split.
Qed.

(** X4. [chainFirst(f)(ma)] returns the value of [ma] and the state left
    by [f(a)] run after it; [chain(f)] is [flatten] after [map(f)];
    [flatten(of(ma))] is [ma]; and a run is the pair of what [evaluate]
    and [execute] project out of it. *)
Theorem State_chainFirst_flatten_run :
  forall (S A B : Type) (f : A -> State.State S B) (ma : State.State S A) (s : S),
    State.chainFirst f ma s
    = (State.evaluate s ma,
       State.execute (State.execute s ma) (f (State.evaluate s ma)))
    /\ State.flatten (State.map f ma) s = State.chain f ma s
    /\ State.flatten (State.of_ ma) s = ma s
    /\ ma s = (State.evaluate s ma, State.execute s ma).
Proof.
  intros S A B f ma s.
  unfold State.chainFirst, State.flatten, State.chain, State.map, State.of_,
    State.evaluate, State.execute.
  destruct (ma s) as [a s2]. simpl. destruct (f a s2) as [b s3].
  repeat split.
Qed.

Lemma State_traverse_runFrom (A S B : Type) (f : nat -> A -> State.State S B)
  (arr : list A) (s : S) :
  State.traverseArrayWithIndex f arr s = State.runFrom f 0 arr s.
Proof.
  unfold State.traverseArrayWithIndex.
  pose proof (@loop_fuel_enough A S B f arr [] (length arr) [] s (le_n _)) as Hrun.
  simpl in Hrun. rewrite Hrun.
  destruct (State.runFrom f 0 arr s). reflexivity.
Qed.

Lemma runFrom_shift (A S B : Type) (f : nat -> A -> State.State S B) (k : nat)
  (l : list A) :
  forall (i : nat) (s : S),
    State.runFrom (fun j => f (k + j)) i l s = State.runFrom f (k + i) l s.
Proof.
  induction l as [|x l IH]; intros i s; simpl; [reflexivity|].
  destruct (f (k + i) x s) as [b s1]. rewrite IH, Nat.add_succ_r. reflexivity.
Qed.

Lemma runFrom_app (A S B : Type) (f : nat -> A -> State.State S B) (l1 l2 : list A) :
  forall (i : nat) (s : S),
    State.runFrom f i (l1 ++ l2) s
    = (let (bs1, s1) := State.runFrom f i l1 s in
       let (bs2, s2) := State.runFrom f (length l1 + i) l2 s1 in
       (bs1 ++ bs2, s2)).
Proof.
  induction l1 as [|x l1 IH]; intros i s; simpl.
  - destruct (State.runFrom f i l2 s). reflexivity.
  - destruct (f i x s) as [b s1]. rewrite IH, Nat.add_succ_r.
    destruct (State.runFrom f (Datatypes.S i) l1 s1) as [bs1 s2].
    destruct (State.runFrom f (Datatypes.S (length l1 + i)) l2 s2). reflexivity.
Qed.

(** X5. [State.traverseArrayWithIndex] splits along the array: on the
    empty array it returns no values and the state untouched; on
    [x :: rest] it is [f(0, x)] chained with the traversal of [rest] at
    the indices shifted by one; on [l1 ++ l2] it is the traversal of [l1]
    followed, on the state that leaves, by the traversal of [l2] at the
    indices from [l1.length] on, the values concatenated. *)
Theorem State_traverseArrayWithIndex_splits :
  forall (A S B : Type) (f : nat -> A -> State.State S B) (x : A)
         (rest l1 l2 : list A) (s : S),
    State.traverseArrayWithIndex f [] s = ([], s)
    /\ State.traverseArrayWithIndex f (x :: rest) s
       = State.chain
           (fun b => State.map (cons b)
                       (State.traverseArrayWithIndex (fun i => f (Datatypes.S i)) rest))
           (f 0 x) s
    /\ State.traverseArrayWithIndex f (l1 ++ l2) s
       = (let (bs1, s1) := State.traverseArrayWithIndex f l1 s in
          let (bs2, s2) :=
            State.traverseArrayWithIndex (fun i => f (length l1 + i)) l2 s1 in
          (bs1 ++ bs2, s2)).
Proof.
  intros A S B f x rest l1 l2 s.
  split; [reflexivity | split].
  - rewrite State_traverse_runFrom. unfold State.chain, State.map. simpl.
    destruct (f 0 x s) as [b s1].
    rewrite State_traverse_runFrom.
    pose proof (runFrom_shift f 1 rest 0 s1) as Hshift. simpl in Hshift.
    rewrite Hshift. reflexivity.
  - rewrite !State_traverse_runFrom, runFrom_app.
    destruct (State.runFrom f 0 l1 s) as [bs1 s1].
    rewrite State_traverse_runFrom, runFrom_shift. reflexivity.
Qed.

(** X6. Mapping and then sequencing is traversing:
    [sequenceArray(arr.map(f))] runs like [traverseArray(f)(arr)], and
    [sequenceArray] of the array [mapWithIndex(f)] agrees with
    [traverseArrayWithIndex(f)]. *)
Theorem State_sequenceArray_after_map :
  forall (A S B : Type) (f : A -> State.State S B) (g : nat -> A -> State.State S B)
         (arr : list A) (s : S),
    State.sequenceArray (List.map f arr) s = State.traverseArray f arr s
    /\ State.sequenceArray (T.mapWithIndex g 0 arr) s
       = State.traverseArrayWithIndex g arr s.
Proof.
  intros A S B f g arr s.
  unfold State.sequenceArray, State.traverseArray.
  rewrite !State_traverse_runFrom.
  split.
  - generalize 0 at 1 2 as i. revert s.
    induction arr as [|x arr IH]; intros s i; simpl; [reflexivity|].
    destruct (f x s) as [b s1]. rewrite IH. reflexivity.
  - generalize 0 at 1 as j. generalize 0 as i. revert s.
    induction arr as [|x arr IH]; intros s i j; simpl; [reflexivity|].
    destruct (g i x s) as [b s1]. rewrite IH. reflexivity.
Qed.

(** ** TaskEither: laws of the combinators *)

(** X7. [map], [mapLeft] and [bimap] obey the functor and bifunctor
    laws, on every world and whether the promise fulfils or rejects:
    identities change nothing, [map] of a composition is [map] twice, and
    [bimap(f, g)] is [mapLeft(f)] and [map(g)] in either order. *)
Theorem TaskEither_map_bimap_laws :
  forall (W E G A B C : Type) (f : A -> B) (g : B -> C) (h : E -> G)
         (fa : TaskEither.TaskEither W E A) (w : W),
    TaskEither.map (fun x => x) fa w = fa w
    /\ TaskEither.mapLeft (fun e => e) fa w = fa w
    /\ TaskEither.map (fun x => g (f x)) fa w = TaskEither.map g (TaskEither.map f fa) w
    /\ TaskEither.bimap h f fa w = TaskEither.mapLeft h (TaskEither.map f fa) w
    /\ TaskEither.bimap h f fa w = TaskEither.map f (TaskEither.mapLeft h fa) w.
Proof.
  intros W E G A B C f g h fa w.
  unfold TaskEither.map, TaskEither.mapLeft, TaskEither.bimap, T.map, T.then1.
  destruct (fa w) as [[[e|a]|r] w1]; repeat split.
Qed.

(** X8. The combinators that only reshape the result run the underlying
    computation once and add no effect of their own: after [map],
    [mapLeft], [bimap], [swap], [filterOrElse] and [chainEitherK] the
    world is the one the underlying computation leaves.  [map] and
    [mapLeft] keep a [Success] a [Success] and a [Failure] a [Failure]. *)
Theorem TaskEither_reshaping_keeps_effects :
  forall (W E G A B : Type) (f : A -> B) (h : E -> G) (predicate : A -> bool)
         (onFalse : A -> E) (k : A -> E.Either E B)
         (ma : TaskEither.TaskEither W E A) (w : W),
    snd (TaskEither.map f ma w) = snd (ma w)
    /\ snd (TaskEither.mapLeft h ma w) = snd (ma w)
    /\ snd (TaskEither.bimap h f ma w) = snd (ma w)
    /\ snd (TaskEither.swap ma w) = snd (ma w)
    /\ snd (TaskEither.filterOrElseW predicate onFalse ma w) = snd (ma w)
    /\ snd (TaskEither.chainEitherKW k ma w) = snd (ma w)
    /\ (forall r w1,
          ma w = (T.Fulfilled r, w1) ->
          exists r1 r2,
            TaskEither.map f ma w = (T.Fulfilled r1, w1)
            /\ TaskEither.mapLeft h ma w = (T.Fulfilled r2, w1)
            /\ E.isRight r1 = E.isRight r
            /\ E.isRight r2 = E.isRight r).
Proof.
  intros W E G A B f h predicate onFalse k ma w.
  split; [|split; [|split; [|split; [|split; [|split]]]]].
  1-6: te_unfold; cbn; destruct (ma w) as [[[e|a]|r] w1]; cbn; try reflexivity.
  - destruct (predicate a); reflexivity.
  - destruct (k a); reflexivity.
  - intros r w1 Hw. te_unfold. unfold E.map, E.mapLeft. rewrite Hw.
    destruct r as [e|a]; eexists; eexists; repeat split.
Qed.

Lemma TaskEither_reshaping_keeps_effects_witness :
  TaskEither.map S (Examples.say "once" (E.Left "no"%string : E.Either string nat))
    Examples.start
  = (T.Fulfilled (E.Left "no"%string), (0, ["once"%string])).
Proof.
  destruct (@TaskEither_reshaping_keeps_effects Examples.World string string nat nat
              S (fun e => e) (fun _ => true) (fun _ => "x"%string) (fun a => E.Right a)
              (Examples.say "once" (E.Left "no"%string)) Examples.start)
    as (_ & _ & _ & _ & _ & _ & H).
  destruct (H (E.Left "no"%string) (0, ["once"%string]) eq_refl)
    as (r1 & r2 & H1 & _ & Hr1 & _).
  rewrite H1. destruct r1 as [e|a]; [|discriminate Hr1].
  cbv in H1. injection H1 as <-. reflexivity.
Defined.

(** X9. [chain] and [of] obey the monad laws on every world:
    [chain(f)(of(a))] is [f(a)], [chain(of)(ma)] is [ma], and [chain] is
    associative; a rejection of the first promise passes through both
    sides alike. *)
Theorem TaskEither_monad_laws :
  forall (W E A B C : Type) (a : A) (f : A -> TaskEither.TaskEither W E B)
         (g : B -> TaskEither.TaskEither W E C) (ma : TaskEither.TaskEither W E A) (w : W),
    TaskEither.chain f (TaskEither.of_ a) w = f a w
    /\ TaskEither.chain TaskEither.of_ ma w = ma w
    /\ TaskEither.chain g (TaskEither.chain f ma) w
       = TaskEither.chain (fun x => TaskEither.chain g (f x)) ma w.
Proof.
  intros W E A B C a f g ma w. te_unfold.
  split; [reflexivity | split];
    destruct (ma w) as [[[e|x]|r] w1]; reflexivity.
Qed.

(** X10. [alt] is a lazy, associative fallback: on a [Success] the
    first computation is returned as it is and [second] is not called
    (the world is the one the first computation leaves, whatever
    [second] is); on a [Failure] the result is that of [second()], run
    in the world the first one leaves; and
    [alt(third)(alt(second)(first))] is
    [alt(() => alt(third)(second()))(first)]. *)
Theorem TaskEither_alt_lazy_associative :
  forall (W E A : Type) (first : TaskEither.TaskEither W E A)
         (second third : unit -> TaskEither.TaskEither W E A) (a : A) (e : E) (w : W),
    TaskEither.altW second (TaskEither.right a) w = (T.Fulfilled (E.Right a), w)
    /\ TaskEither.altW second (TaskEither.left e) w = second tt w
    /\ TaskEither.altW third (TaskEither.altW second first) w
       = TaskEither.altW (fun _ => TaskEither.altW third (second tt)) first w
    /\ (forall a1 w1,
          first w = (T.Fulfilled (E.Right a1), w1) ->
          TaskEither.altW second first w = (T.Fulfilled (E.Right a1), w1))
    /\ (forall e1 w1,
          first w = (T.Fulfilled (E.Left e1), w1) ->
          TaskEither.altW second first w = second tt w1).
Proof.
  intros W E A first second third a e w. te_unfold.
  split; [reflexivity | split; [reflexivity | split; [|split]]].
  - destruct (first w) as [[[e1|a1]|r] w1]; reflexivity.
  - intros a1 w1 Hw. rewrite Hw. reflexivity.
  - intros e1 w1 Hw. rewrite Hw. reflexivity.
Qed.

Lemma TaskEither_alt_lazy_associative_witness :
  TaskEither.altW (fun _ => Examples.say "second" (E.Right 2))
    (Examples.say "first" (E.Right 1 : E.Either string nat)) Examples.start
  = (T.Fulfilled (E.Right 1), (0, ["first"%string]))
  /\ TaskEither.altW (fun _ => Examples.say "second" (E.Right 2))
       (Examples.say "first" (E.Left "a"%string)) Examples.start
     = (T.Fulfilled (E.Right 2), (0, ["first"; "second"]%string)).
Proof.
  split.
  - destruct (@TaskEither_alt_lazy_associative Examples.World string nat
                (Examples.say "first" (E.Right 1))
                (fun _ => Examples.say "second" (E.Right 2))
                (fun _ => Examples.say "third" (E.Right 3)) 0 "e"%string Examples.start)
      as (_ & _ & _ & H & _).
    exact (H 1 (0, ["first"%string]) eq_refl).
  - destruct (@TaskEither_alt_lazy_associative Examples.World string nat
                (Examples.say "first" (E.Left "a"%string))
                (fun _ => Examples.say "second" (E.Right 2))
                (fun _ => Examples.say "third" (E.Right 3)) 0 "e"%string Examples.start)
      as (_ & _ & _ & _ & H).
    exact (H "a"%string (0, ["first"%string]) eq_refl).
Defined.

(** X11. [orElse] is [chain] on the failure side: [orElse(left)] changes
    nothing, [orElse(f)(right(a))] is [right(a)], [orElse(f)(left(e))] is
    [f(e)], [orElse] is associative, [alt(second)] is
    [orElse(() => second())], and [orElse(f)(ma)] is
    [swap(chain((e) => swap(f(e)))(swap(ma)))]. *)
Theorem TaskEither_orElse_laws :
  forall (W E M N A : Type) (f : E -> TaskEither.TaskEither W M A)
         (g : M -> TaskEither.TaskEither W N A)
         (second : unit -> TaskEither.TaskEither W E A)
         (ma : TaskEither.TaskEither W E A) (a : A) (e : E) (w : W),
    TaskEither.orElse TaskEither.left ma w = ma w
    /\ TaskEither.orElse f (TaskEither.right a) w = TaskEither.right a w
    /\ TaskEither.orElse f (TaskEither.left e) w = f e w
    /\ TaskEither.orElse g (TaskEither.orElse f ma) w
       = TaskEither.orElse (fun x => TaskEither.orElse g (f x)) ma w
    /\ TaskEither.altW second ma w = TaskEither.orElse (fun _ => second tt) ma w
    /\ TaskEither.orElse f ma w
       = TaskEither.swap
           (TaskEither.chain (fun x => TaskEither.swap (f x)) (TaskEither.swap ma)) w.
Proof.
  intros W E M N A f g second ma a e w. te_unfold. unfold E.swap.
  split; [|split; [reflexivity | split; [reflexivity | split; [|split; [reflexivity|]]]]];
    destruct (ma w) as [[[e1|a1]|r] w1]; cbn; try reflexivity.
  destruct (f e1 w1) as [[[m|a2]|r] w2]; reflexivity.
Qed.

(** X12. [swap] is an involution that exchanges the two sides:
    [swap(swap(ma))] is [ma], [swap(left(e))] is [right(e)],
    [swap(right(a))] is [left(a)], and [leftTask] is [swap] after
    [rightTask]. *)
Theorem TaskEither_swap_involutive :
  forall (W E A : Type) (ma : TaskEither.TaskEither W E A) (me : T.Task W E)
         (a : A) (e : E) (w : W),
    TaskEither.swap (TaskEither.swap ma) w = ma w
    /\ TaskEither.swap (TaskEither.left e : TaskEither.TaskEither W E A) w
       = TaskEither.right e w
    /\ TaskEither.swap (TaskEither.right a : TaskEither.TaskEither W E A) w
       = TaskEither.left a w
    /\ (TaskEither.leftTask me : TaskEither.TaskEither W E A) w
       = TaskEither.swap (TaskEither.rightTask me) w.
Proof.
  intros W E A ma me a e w. te_unfold. unfold E.swap.
  split; [|split; [reflexivity | split; [reflexivity|]]].
  - destruct (ma w) as [[[e1|a1]|r] w1]; reflexivity.
  - destruct (me w) as [[e1|r] w1]; reflexivity.
Qed.

(** X13. [filterOrElse] and [fromPredicate]: on [right(a)] the filter is
    [fromPredicate] at [a]; a [Failure] passes through untouched;
    filtering twice with the same predicate is filtering once; a
    predicate that always holds changes nothing; and [fromPredicate] and
    [fromOption] are [fromEither] of the [Either] the test yields. *)
Theorem TaskEither_filterOrElse_laws :
  forall (W E A : Type) (predicate : A -> bool) (onFalse : A -> E) (onNone : unit -> E)
         (ma : TaskEither.TaskEither W E A) (o : option A) (a : A) (e : E) (w : W),
    TaskEither.filterOrElseW predicate onFalse (TaskEither.right a) w
    = TaskEither.fromPredicate predicate onFalse a w
    /\ TaskEither.filterOrElseW predicate onFalse (TaskEither.left e) w
       = TaskEither.left e w
    /\ TaskEither.filterOrElseW predicate onFalse
         (TaskEither.filterOrElseW predicate onFalse ma) w
       = TaskEither.filterOrElseW predicate onFalse ma w
    /\ TaskEither.filterOrElseW (fun _ => true) onFalse ma w = ma w
    /\ TaskEither.fromPredicate predicate onFalse a w
       = TaskEither.fromEither
           (if predicate a then E.Right a else E.Left (onFalse a)) w
    /\ TaskEither.fromOption onNone o w
       = TaskEither.fromEither
           (match o with Some x => E.Right x | None => E.Left (onNone tt) end) w.
Proof.
  intros W E A predicate onFalse onNone ma o a e w. te_unfold.
  split; [reflexivity | split; [reflexivity | split; [|split; [|split]]]].
  - destruct (ma w) as [[[e1|a1]|r] w1]; cbn; try reflexivity.
    destruct (predicate a1) eqn:Hp; cbn; [rewrite Hp|]; reflexivity.
  - destruct (ma w) as [[[e1|a1]|r] w1]; reflexivity.
  - destruct (predicate a); reflexivity.
  - destruct o; reflexivity.
Qed.

(** X14. The sequential apply [ApplicativeSeq.ap] against the parallel
    one.  The sequential one starts [fa] only once [fab] has settled
    [Success(f)], in the world [fab] leaves: the result is then
    [map(f)(fa)] run there.  When [fab] settles [Failure(e)] both give
    [Failure(e)], but the sequential one stops in the world [fab]
    leaves, without starting [fa], while the parallel one has run [fa]
    as well. *)
Theorem TaskEither_apSeq_against_ap :
  forall (W E A B : Type) (fa : TaskEither.TaskEither W E A)
         (fab : TaskEither.TaskEither W E (A -> B)) (w : W),
    (forall f w1,
        fab w = (T.Fulfilled (E.Right f), w1) ->
        TaskEither.Applicative_ap (TaskEither.ApplicativeSeq W) fa fab w
        = TaskEither.map f fa w1)
    /\ (forall e w1,
          fab w = (T.Fulfilled (E.Left e), w1) ->
          TaskEither.Applicative_ap (TaskEither.ApplicativeSeq W) fa fab w
          = (T.Fulfilled (E.Left e), w1)
          /\ snd (TaskEither.Applicative_ap (TaskEither.ApplicativePar W) fa fab w)
             = snd (fa w1)
          /\ (forall ga w2,
                fa w1 = (T.Fulfilled ga, w2) ->
                TaskEither.Applicative_ap (TaskEither.ApplicativePar W) fa fab w
                = (T.Fulfilled (E.Left e), w2))).
Proof.
  intros W E A B fa fab w.
  cbn [TaskEither.Applicative_ap TaskEither.ApplicativeSeq TaskEither.ApplicativePar].
  te_unfold. unfold E.map, E.apW.
  split.
  - intros f w1 Hw. rewrite Hw. reflexivity.
  - intros e w1 Hw. rewrite Hw. split; [reflexivity | split].
    + destruct (fa w1) as [[ga|r] w2]; reflexivity.
    + intros ga w2 Hfa. rewrite Hfa. reflexivity.
Qed.

Lemma TaskEither_apSeq_against_ap_witness :
  TaskEither.Applicative_ap (TaskEither.ApplicativeSeq Examples.World)
    (Examples.say "fa" (E.Right 1))
    (Examples.say "fab" (E.Left "a"%string) : TaskEither.TaskEither _ _ (nat -> nat))
    Examples.start
  = (T.Fulfilled (E.Left "a"%string), (0, ["fab"%string]))
  /\ TaskEither.Applicative_ap (TaskEither.ApplicativePar Examples.World)
       (Examples.say "fa" (E.Right 1))
       (Examples.say "fab" (E.Left "a"%string) : TaskEither.TaskEither _ _ (nat -> nat))
       Examples.start
     = (T.Fulfilled (E.Left "a"%string), (0, ["fab"; "fa"]%string)).
Proof.
  destruct (@TaskEither_apSeq_against_ap Examples.World string nat nat
              (Examples.say "fa" (E.Right 1)) (Examples.say "fab" (E.Left "a"%string))
              Examples.start) as [_ H].
  destruct (H "a"%string (0, ["fab"%string]) eq_refl) as (H1 & _ & H3).
  split; [exact H1 | exact (H3 (E.Right 1) (0, ["fab"; "fa"]%string) eq_refl)].
Defined.

(** X15. The [alt] of [getAltTaskValidation(SE)]: a [Success] of the
    first computation is returned and [second] is not called; after a
    [Failure(e1)] the [Success] of [second()] is returned; when both
    fail, with [e1] and then [e2], the result is
    [Failure(SE.concat(e2)(e1))]: both errors are kept. *)
Theorem TaskEither_altValidation_accumulates :
  forall (W E A : Type) (concat : E -> E -> E)
         (second : unit -> TaskEither.TaskEither W E A)
         (first : TaskEither.TaskEither W E A) (w : W),
    (forall a w1,
        first w = (T.Fulfilled (E.Right a), w1) ->
        TaskEither.altValidation concat second first w = (T.Fulfilled (E.Right a), w1))
    /\ (forall e1 w1 b w2,
          first w = (T.Fulfilled (E.Left e1), w1) ->
          second tt w1 = (T.Fulfilled (E.Right b), w2) ->
          TaskEither.altValidation concat second first w = (T.Fulfilled (E.Right b), w2))
    /\ (forall e1 w1 e2 w2,
          first w = (T.Fulfilled (E.Left e1), w1) ->
          second tt w1 = (T.Fulfilled (E.Left e2), w2) ->
          TaskEither.altValidation concat second first w
          = (T.Fulfilled (E.Left (concat e2 e1)), w2)).
Proof.
  intros W E A concat second first w. te_unfold.
  split; [|split].
  - intros a w1 Hw. rewrite Hw. reflexivity.
  - intros e1 w1 b w2 Hw Hs. rewrite Hw, Hs. reflexivity.
  - intros e1 w1 e2 w2 Hw Hs. rewrite Hw, Hs. reflexivity.
Qed.

Lemma TaskEither_altValidation_accumulates_witness :
  TaskEither.altValidation (fun later earlier => (earlier ++ later)%string)
    (fun _ => Examples.say "second" (E.Left "b"%string))
    (Examples.say "first" (E.Left "a"%string : E.Either string nat)) Examples.start
  = (T.Fulfilled (E.Left "ab"%string), (0, ["first"; "second"]%string)).
Proof.
  destruct (@TaskEither_altValidation_accumulates Examples.World string nat
              (fun later earlier => (earlier ++ later)%string)
              (fun _ => Examples.say "second" (E.Left "b"%string))
              (Examples.say "first" (E.Left "a"%string)) Examples.start)
    as (_ & _ & H).
  exact (H "a"%string (0, ["first"%string]) "b"%string
           (0, ["first"; "second"]%string) eq_refl eq_refl).
Defined.

(** X16. [chainFirst(f)(ma)]: a [Failure] of [ma] is the result and [f]
    is not run; after [Success(a)], if [f(a)] settles [Success] the
    result is [Success(a)], the value of [f(a)] dropped but its effect
    kept, and if [f(a)] settles [Failure(e)] the result is
    [Failure(e)].  Chaining first a computation that only succeeds
    changes nothing. *)
Theorem TaskEither_chainFirst_keeps_first :
  forall (W E A B : Type) (f : A -> TaskEither.TaskEither W E B)
         (ma : TaskEither.TaskEither W E A) (b : B) (w : W),
    TaskEither.chainFirstW (fun _ => TaskEither.of_ b) ma w = ma w
    /\ (forall e w1,
          ma w = (T.Fulfilled (E.Left e), w1) ->
          TaskEither.chainFirstW f ma w = (T.Fulfilled (E.Left e), w1))
    /\ (forall a w1 b1 w2,
          ma w = (T.Fulfilled (E.Right a), w1) ->
          f a w1 = (T.Fulfilled (E.Right b1), w2) ->
          TaskEither.chainFirstW f ma w = (T.Fulfilled (E.Right a), w2))
    /\ (forall a w1 e w2,
          ma w = (T.Fulfilled (E.Right a), w1) ->
          f a w1 = (T.Fulfilled (E.Left e), w2) ->
          TaskEither.chainFirstW f ma w = (T.Fulfilled (E.Left e), w2)).
Proof.
  intros W E A B f ma b w. te_unfold. unfold E.map.
  split; [|split; [|split]].
  - destruct (ma w) as [[[e|a]|r] w1]; reflexivity.
  - intros e w1 Hw. rewrite Hw. reflexivity.
  - intros a w1 b1 w2 Hw Hf. rewrite Hw. cbn. rewrite Hf. reflexivity.
  - intros a w1 e w2 Hw Hf. rewrite Hw. cbn. rewrite Hf. reflexivity.
Qed.

Lemma TaskEither_chainFirst_keeps_first_witness :
  TaskEither.chainFirstW Examples.increment (Examples.say "first" (E.Right 41))
    Examples.start
  = (T.Fulfilled (E.Right 41), (0, ["first"; "increment"]%string)).
Proof.
  destruct (@TaskEither_chainFirst_keeps_first Examples.World string nat nat
              Examples.increment (Examples.say "first" (E.Right 41)) 0 Examples.start)
    as (_ & _ & H & _).
  exact (H 41 (0, ["first"%string]) 42 (0, ["first"; "increment"]%string)
           eq_refl eq_refl).
Defined.

(** ** TaskEither: the traversals as iterated [chain] and [ap] *)

Lemma mapWithIndex_shift (A B : Type) (g : nat -> A -> B) (k : nat) (arr : list A) :
  forall i : nat,
    T.mapWithIndex (fun j => g (k + j)) i arr = T.mapWithIndex g (k + i) arr.
Proof.
  induction arr as [|x arr IH]; intros i; simpl; [reflexivity|].
  rewrite IH, Nat.add_succ_r. reflexivity.
Qed.

Lemma mapWithIndex_map (A B : Type) (f : A -> B) (arr : list A) :
  forall i : nat,
    T.mapWithIndex (fun (_ : nat) (t : B) => t) i (List.map f arr)
    = T.mapWithIndex (fun _ a => f a) i arr.
Proof.
  induction arr as [|x arr IH]; intros i; simpl; [reflexivity|].
  rewrite IH. reflexivity.
Qed.

Section SeqFromFacts.

Context {W A B E : Type}.

Lemma seqFrom_out (g : nat -> A -> TaskEither.TaskEither W E B) (rest : list A) :
  forall (i : nat) (out : list B) (w : W),
    TaskEither.seqFrom g i rest out w
    = TaskEither.map (app out) (TaskEither.seqFrom g i rest []) w.
Proof.
  unfold TaskEither.map, T.map, T.then1, E.map.
  induction rest as [|x rest IH]; intros i out w; simpl.
  - rewrite app_nil_r. reflexivity.
  - destruct (g i x w) as [[[l|r]|reason] w1]; try reflexivity.
    rewrite (IH (S i) (out ++ [r]) w1), (IH (S i) [r] w1).
    destruct (TaskEither.seqFrom g (S i) rest [] w1) as [[[l|bs]|reason] w2];
      try reflexivity.
    rewrite <- app_assoc. reflexivity.
Qed.

Lemma seqFrom_shift (g : nat -> A -> TaskEither.TaskEither W E B) (k : nat)
  (rest : list A) :
  forall (i : nat) (out : list B) (w : W),
    TaskEither.seqFrom (fun j => g (k + j)) i rest out w
    = TaskEither.seqFrom g (k + i) rest out w.
Proof.
  induction rest as [|x rest IH]; intros i out w; simpl; [reflexivity|].
  destruct (g (k + i) x w) as [[[l|r]|reason] w1]; try reflexivity.
  rewrite IH, Nat.add_succ_r. reflexivity.
Qed.

Lemma traverseSeq_seqFrom (g : nat -> A -> TaskEither.TaskEither W E B)
  (arr : list A) (w : W) :
  TaskEither.traverseSeqArrayWithIndex g arr w = TaskEither.seqFrom g 0 arr [] w.
Proof.
  unfold TaskEither.traverseSeqArrayWithIndex.
  exact (@seqLoop_fuel_enough W A B E g arr [] (length arr) [] w (le_n _)).
Qed.

End SeqFromFacts.

(** X17. The sequential traversal is an iterated [chain]: on the empty
    array [traverseSeqArrayWithIndex(f)] is [right([])]; on [x :: rest]
    it is [f(0, x)] chained with the traversal of [rest] at the indices
    shifted by one, the value put in front; and
    [sequenceSeqArray(arr.map(f))] is [traverseSeqArray(f)(arr)]. *)
Theorem TaskEither_traverseSeqArray_is_iterated_chain :
  forall (W A B E : Type) (f : nat -> A -> TaskEither.TaskEither W E B)
         (h : A -> TaskEither.TaskEither W E B) (x : A) (rest arr : list A) (w : W),
    TaskEither.traverseSeqArrayWithIndex f [] w = TaskEither.right [] w
    /\ TaskEither.traverseSeqArrayWithIndex f (x :: rest) w
       = TaskEither.chain
           (fun b => TaskEither.map (cons b)
                       (TaskEither.traverseSeqArrayWithIndex (fun i => f (S i)) rest))
           (f 0 x) w
    /\ TaskEither.sequenceSeqArray (List.map h arr) w
       = TaskEither.traverseSeqArray h arr w.
Proof.
  intros W A B E f h x rest arr w.
  split; [reflexivity | split].
  - rewrite traverseSeq_seqFrom.
    unfold TaskEither.chain, TaskEither.chainW, T.chain, E.fold. simpl.
    destruct (f 0 x w) as [[[l|r]|reason] w1]; try reflexivity.
    rewrite seqFrom_out.
    unfold TaskEither.map, T.map, T.then1.
    rewrite traverseSeq_seqFrom.
    pose proof (seqFrom_shift f 1 rest 0 [] w1) as Hshift. simpl in Hshift.
    rewrite Hshift. reflexivity.
  - unfold TaskEither.sequenceSeqArray, TaskEither.traverseSeqArray.
    rewrite !traverseSeq_seqFrom.
    generalize 0 as i. generalize (@nil B) as out. revert w.
    induction arr as [|y arr IH]; intros w out i; simpl; [reflexivity|].
    destruct (h y w) as [[[l|r]|reason] w1]; try reflexivity. apply IH.
Qed.

(** X18. The parallel traversal is an iterated [ap]: on the empty array
    [traverseArrayWithIndex(f)] is [right([])]; on [x :: rest] it is the
    parallel [ap] of the traversal of [rest], at the indices shifted by
    one, to [f(0, x)] mapped to put its value in front; and
    [sequenceArray(arr.map(f))] is [traverseArray(f)(arr)]. *)
Theorem TaskEither_traverseArray_is_iterated_ap :
  forall (W A B E : Type) (f : nat -> A -> TaskEither.TaskEither W E B)
         (h : A -> TaskEither.TaskEither W E B) (x : A) (rest arr : list A) (w : W),
    TaskEither.traverseArrayWithIndex f [] w = TaskEither.right [] w
    /\ TaskEither.traverseArrayWithIndex f (x :: rest) w
       = TaskEither.ap
           (TaskEither.traverseArrayWithIndex (fun i => f (S i)) rest)
           (TaskEither.map cons (f 0 x)) w
    /\ TaskEither.sequenceArray (List.map h arr) w = TaskEither.traverseArray h arr w.
Proof.
  intros W A B E f h x rest arr w.
  split; [reflexivity | split].
  - unfold TaskEither.traverseArrayWithIndex, T.traverseArrayWithIndex.
    unfold TaskEither.TaskEither in *.
    pose proof (mapWithIndex_shift f 1 rest 0) as Hshift. simpl in Hshift.
    rewrite Hshift. te_unfold. unfold E.map, E.apW. simpl.
    destruct (f 0 x w) as [[[l|r]|reason] w1];
      destruct (T.all (T.mapWithIndex f 1 rest) w1) as [[rs|reason'] w2];
      try reflexivity.
  - unfold TaskEither.sequenceArray, TaskEither.traverseArray,
      TaskEither.traverseArrayWithIndex, T.traverseArrayWithIndex.
    unfold TaskEither.TaskEither in *.
    rewrite mapWithIndex_map. reflexivity.
Qed.

(** ** TaskEither: [separate], [bracket] and [tryCatch] *)

(** X19. The two halves of [getCompactable(M).separate(fe)] each run
    [fe] once and add no effect.  A [Failure(e)] of [fe] is the result
    of both halves.  A [Success] holding [Left(a)] makes the left half
    [Success(a)] and the right half [Failure(M.empty)]; a [Success]
    holding [Right(b)] makes the right half [Success(b)] and the left
    half [Failure(M.empty)]: exactly one half succeeds. *)
Theorem TaskEither_separate_halves :
  forall (W E A B : Type) (empty : E)
         (fe : TaskEither.TaskEither W E (E.Either A B)) (w : W),
    snd (TaskEither.separated_left (TaskEither.separate empty fe) w) = snd (fe w)
    /\ snd (TaskEither.separated_right (TaskEither.separate empty fe) w) = snd (fe w)
    /\ (forall e w1,
          fe w = (T.Fulfilled (E.Left e), w1) ->
          TaskEither.separated_left (TaskEither.separate empty fe) w
          = (T.Fulfilled (E.Left e), w1)
          /\ TaskEither.separated_right (TaskEither.separate empty fe) w
             = (T.Fulfilled (E.Left e), w1))
    /\ (forall a w1,
          fe w = (T.Fulfilled (E.Right (E.Left a)), w1) ->
          TaskEither.separated_left (TaskEither.separate empty fe) w
          = (T.Fulfilled (E.Right a), w1)
          /\ TaskEither.separated_right (TaskEither.separate empty fe) w
             = (T.Fulfilled (E.Left empty), w1))
    /\ (forall b w1,
          fe w = (T.Fulfilled (E.Right (E.Right b)), w1) ->
          TaskEither.separated_left (TaskEither.separate empty fe) w
          = (T.Fulfilled (E.Left empty), w1)
          /\ TaskEither.separated_right (TaskEither.separate empty fe) w
             = (T.Fulfilled (E.Right b), w1)).
Proof.
  intros W E A B empty fe w.
  cbn [TaskEither.separate TaskEither.separated_left TaskEither.separated_right].
  te_unfold.
  split; [|split; [|split; [|split]]].
  - destruct (fe w) as [[x|r] w1]; reflexivity.
  - destruct (fe w) as [[x|r] w1]; reflexivity.
  - intros e w1 Hw. rewrite Hw. split; reflexivity.
  - intros a w1 Hw. rewrite Hw. split; reflexivity.
  - intros b w1 Hw. rewrite Hw. split; reflexivity.
Qed.

Lemma TaskEither_separate_halves_witness :
  TaskEither.separated_left
    (TaskEither.separate ""%string
       (Examples.say "fe" (E.Right (E.Right 7 : E.Either bool nat))))
    Examples.start
  = (T.Fulfilled (E.Left ""%string), (0, ["fe"%string]))
  /\ TaskEither.separated_right
       (TaskEither.separate ""%string
          (Examples.say "fe" (E.Right (E.Right 7 : E.Either bool nat))))
       Examples.start
     = (T.Fulfilled (E.Right 7), (0, ["fe"%string])).
Proof.
  destruct (@TaskEither_separate_halves Examples.World string bool nat ""%string
              (Examples.say "fe" (E.Right (E.Right 7))) Examples.start)
    as (_ & _ & _ & _ & H).
  exact (H 7 (0, ["fe"%string]) eq_refl).
Defined.

(** X20. [bracket] with a [release] that only succeeds is [use] chained
    after [acquire]; [bracket] on a failed [acquire] is that failure,
    whatever [use] and [release] are. *)
Theorem TaskEither_bracket_trivial_release :
  forall (W E A B : Type) (acquire : TaskEither.TaskEither W E A)
         (use : A -> TaskEither.TaskEither W E B)
         (release : A -> E.Either E B -> TaskEither.TaskEither W E unit)
         (e : E) (w : W),
    TaskEither.bracket acquire use (fun _ _ => TaskEither.of_ tt) w
    = TaskEither.chain use acquire w
    /\ TaskEither.bracket (TaskEither.left e) use release w = TaskEither.left e w.
Proof.
  intros W E A B acquire use release e w. te_unfold.
  split; [|reflexivity].
  destruct (acquire w) as [[[e1|a]|r] w1]; try reflexivity.
  destruct (use a w1) as [[[e2|b]|r] w2]; reflexivity.
Qed.

(** X21. [tryCatch] on a promise that does not reject is [rightTask]:
    [onRejected] plays no part.  [tryCatch] of an already rejected
    promise is [left(onRejected(reason))] and of an already fulfilled
    one is [right(a)]. *)
Theorem TaskEither_tryCatch_without_rejection :
  forall (W E A : Type) (f : T.Task W A) (onRejected : unknown -> E)
         (reason : unknown) (a : A) (w : W),
    neverRejects f ->
    TaskEither.tryCatch f onRejected w = TaskEither.rightTask f w
    /\ TaskEither.tryCatch (T.reject reason : T.Task W A) onRejected w
       = TaskEither.left (onRejected reason) w
    /\ TaskEither.tryCatch (T.resolve a) onRejected w = TaskEither.right a w.
Proof.
  intros W E A f onRejected reason a w Hf. te_unfold.
  split; [|split; reflexivity].
  destruct (Hf w) as (x & w1 & Hw). rewrite Hw. reflexivity.
Qed.

Lemma TaskEither_tryCatch_without_rejection_witness :
  TaskEither.tryCatch (T.resolve 5 : T.Task Examples.World nat) jsString Examples.start
  = TaskEither.rightTask (T.resolve 5) Examples.start.
Proof.
  destruct (@TaskEither_tryCatch_without_rejection Examples.World string nat
              (T.resolve 5) jsString JsNull 0 Examples.start
              (fun w => ex_intro _ 5 (ex_intro _ w eq_refl))) as [H _].
  exact H.
Defined.

(** ** The order and the equality of [number] *)

Lemma SFcompare_orderKey (x y : number.number) :
  x <> number.NaN -> y <> number.NaN ->
  SFcompare x y = Some (number.lexCompare (number.orderKey x) (number.orderKey y)).
Proof.
  intros Hx Hy.
  destruct x as [sx|sx| |sx mx ex], y as [sy|sy| |sy my ey];
    try contradiction;
    try (destruct sx; reflexivity);
    try (destruct sy; reflexivity);
    try (destruct sx, sy; reflexivity).
  destruct sx, sy; try reflexivity; simpl.
  rewrite Z.compare_opp, (Z.compare_antisym ex ey).
  destruct (ex ?= ey)%Z; reflexivity.
Qed.

Lemma lexCompare_trans_le (k1 k2 k3 : Z * Z * Z) :
  number.lexCompare k1 k2 <> Gt -> number.lexCompare k2 k3 <> Gt ->
  number.lexCompare k1 k3 <> Gt.
Proof.
  destruct k1 as [[a1 b1] c1], k2 as [[a2 b2] c2], k3 as [[a3 b3] c3].
  unfold number.lexCompare.
  repeat match goal with
         | |- context [(?a ?= ?b)%Z] => destruct (Z.compare_spec a b)
         end;
    intros Hle1 Hle2; try congruence; try lia.
Qed.

Lemma lexCompare_trans_lt (k1 k2 k3 : Z * Z * Z) :
  number.lexCompare k1 k2 = Lt -> number.lexCompare k2 k3 = Lt ->
  number.lexCompare k1 k3 = Lt.
Proof.
  destruct k1 as [[a1 b1] c1], k2 as [[a2 b2] c2], k3 as [[a3 b3] c3].
  unfold number.lexCompare.
  repeat match goal with
         | |- context [(?a ?= ?b)%Z] => destruct (Z.compare_spec a b)
         end;
    intros Hle1 Hle2; try congruence; try lia.
Qed.

Lemma lexCompare_eq (k1 k2 : Z * Z * Z) :
  number.lexCompare k1 k2 = Datatypes.Eq <-> k1 = k2.
Proof.
  destruct k1 as [[a1 b1] c1], k2 as [[a2 b2] c2].
  unfold number.lexCompare. split.
  - repeat match goal with
           | |- context [(?a ?= ?b)%Z] => destruct (Z.compare_spec a b)
           end;
      intros Heq; try discriminate; congruence.
  - intros H. injection H as -> -> ->. rewrite !Z.compare_refl. reflexivity.
Qed.

Lemma SFltb_not_NaN (x y : number.number) :
  SFltb x y = true -> x <> number.NaN /\ y <> number.NaN.
Proof.
  unfold SFltb, number.NaN.
  destruct x, y; simpl; intros H; try discriminate; split; discriminate.
Qed.

Lemma SFeqb_not_NaN (x y : number.number) :
  SFeqb x y = true -> x <> number.NaN /\ y <> number.NaN.
Proof.
  unfold SFeqb, number.NaN.
  destruct x, y; simpl; intros H; try discriminate; split; discriminate.
Qed.

(** X22. [Ord.compare] is antisymmetric and reflexive on every number,
    NaN included: [compare(y, x)] is the opposite of [compare(x, y)] and
    [compare(x, x)] is [0].  It takes no value but [-1], [0] and [1]. *)
Theorem number_Ord_compare_antisymmetric :
  forall x y : number.number,
    number.compare number.Ord y x = (- number.compare number.Ord x y)%Z
    /\ number.compare number.Ord x x = 0%Z
    /\ (number.compare number.Ord x y = (-1)%Z
        \/ number.compare number.Ord x y = 0%Z
        \/ number.compare number.Ord x y = 1%Z).
Proof.
  intros x y.
  unfold number.Ord, number.lt, number.gt, SFltb. cbn [number.compare].
  rewrite (SFcompare_antisym x y).
  split; [|split].
  - destruct (SFcompare x y) as [[]|]; reflexivity.
  - pose proof (SFcompare_antisym x x) as Hxx.
    destruct (SFcompare x x) as [[]|]; try reflexivity; discriminate Hxx.
  - destruct (SFcompare x y) as [[]|]; simpl; auto.
Qed.

(** X23. [Eq.equals] on numbers is symmetric and transitive; it is
    reflexive exactly on the numbers other than NaN; and it makes the
    two zeros equal. *)
Theorem number_Eq_partial_equivalence :
  forall x y z : number.number,
    number.equals number.Eq x y = number.equals number.Eq y x
    /\ (number.equals number.Eq x y = true ->
        number.equals number.Eq y z = true ->
        number.equals number.Eq x z = true)
    /\ (number.equals number.Eq x x = true <-> x <> number.NaN)
    /\ number.equals number.Eq (S754_zero false) (S754_zero true) = true.
Proof.
  intros x y z.
  unfold number.Eq, number.eqStrict. cbn [number.equals].
  split; [|split; [|split; [|reflexivity]]].
  - unfold SFeqb. rewrite (SFcompare_antisym x y).
    destruct (SFcompare x y) as [[]|]; reflexivity.
  - intros Hxy Hyz.
    destruct (SFeqb_not_NaN _ _ Hxy) as [Hx Hy].
    destruct (SFeqb_not_NaN _ _ Hyz) as [_ Hz].
    unfold SFeqb in *.
    rewrite (SFcompare_orderKey Hx Hy) in Hxy.
    rewrite (SFcompare_orderKey Hy Hz) in Hyz.
    rewrite (SFcompare_orderKey Hx Hz).
    assert (H1 : number.lexCompare (number.orderKey x) (number.orderKey y) = Datatypes.Eq).
    { destruct (number.lexCompare (number.orderKey x) (number.orderKey y));
        [reflexivity | discriminate | discriminate]. }
    assert (H2 : number.lexCompare (number.orderKey y) (number.orderKey z) = Datatypes.Eq).
    { destruct (number.lexCompare (number.orderKey y) (number.orderKey z));
        [reflexivity | discriminate | discriminate]. }
    apply lexCompare_eq in H1. apply lexCompare_eq in H2.
    rewrite H1, H2. rewrite (proj2 (lexCompare_eq _ _) eq_refl). reflexivity.
  - split.
    + intros H. apply (SFeqb_not_NaN _ _ H).
    + intros Hx. unfold SFeqb. rewrite (SFcompare_orderKey Hx Hx).
      rewrite (proj2 (lexCompare_eq _ _) eq_refl). reflexivity.
Qed.

Lemma number_Eq_partial_equivalence_witness :
  number.equals number.Eq (S754_zero true) number.one = false
  /\ number.equals number.Eq number.one number.one = true.
Proof.
  destruct (number_Eq_partial_equivalence number.one number.one number.one)
    as (_ & _ & H & _).
  split; [reflexivity | apply H; discriminate].
Defined.

(** X24. With NaN left out, [Ord] orders the numbers: if
    [compare(x, y)] and [compare(y, z)] are both at most [0], so is
    [compare(x, z)].  The strict order needs no proviso: if
    [compare(x, y)] and [compare(y, z)] are both [-1], so is
    [compare(x, z)], on all numbers. *)
Theorem number_Ord_transitive :
  forall x y z : number.number,
    (x <> number.NaN -> y <> number.NaN -> z <> number.NaN ->
     (number.compare number.Ord x y <= 0)%Z ->
     (number.compare number.Ord y z <= 0)%Z ->
     (number.compare number.Ord x z <= 0)%Z)
    /\ (number.compare number.Ord x y = (-1)%Z ->
        number.compare number.Ord y z = (-1)%Z ->
        number.compare number.Ord x z = (-1)%Z).
Proof.
  intros x y z.
  unfold number.Ord, number.lt, number.gt. cbn [number.compare].
  split.
  - intros Hx Hy Hz. unfold SFltb.
    rewrite (SFcompare_antisym x y), (SFcompare_antisym y z), (SFcompare_antisym x z).
    rewrite (SFcompare_orderKey Hx Hy), (SFcompare_orderKey Hy Hz),
      (SFcompare_orderKey Hx Hz).
    pose proof (@lexCompare_trans_le (number.orderKey x) (number.orderKey y)
                  (number.orderKey z)) as Htrans.
    destruct (number.lexCompare (number.orderKey x) (number.orderKey y));
      destruct (number.lexCompare (number.orderKey y) (number.orderKey z));
      destruct (number.lexCompare (number.orderKey x) (number.orderKey z));
      simpl; intros H1 H2; try lia;
      exfalso; apply Htrans; congruence.
  - intros H1 H2.
    assert (Hxy : SFltb x y = true).
    { destruct (SFltb x y); [reflexivity|]. destruct (SFltb y x); discriminate H1. }
    assert (Hyz : SFltb y z = true).
    { destruct (SFltb y z); [reflexivity|]. destruct (SFltb z y); discriminate H2. }
    destruct (SFltb_not_NaN _ _ Hxy) as [Hx Hy].
    destruct (SFltb_not_NaN _ _ Hyz) as [_ Hz].
    assert (Hxz : SFltb x z = true).
    { unfold SFltb in *.
      rewrite (SFcompare_orderKey Hx Hy) in Hxy.
      rewrite (SFcompare_orderKey Hy Hz) in Hyz.
      rewrite (SFcompare_orderKey Hx Hz).
      rewrite (@lexCompare_trans_lt (number.orderKey x) (number.orderKey y)
                 (number.orderKey z)); [reflexivity | |].
      - destruct (number.lexCompare (number.orderKey x) (number.orderKey y));
          [discriminate | reflexivity | discriminate].
      - destruct (number.lexCompare (number.orderKey y) (number.orderKey z));
          [discriminate | reflexivity | discriminate]. }
    rewrite Hxz. reflexivity.
Qed.

Lemma number_Ord_transitive_witness :
  (number.compare number.Ord (S754_zero true) number.one <= 0)%Z.
Proof.
  destruct (number_Ord_transitive (S754_zero true) (S754_zero false) number.one)
    as [H _].
  apply H; try discriminate; cbv; discriminate.
Defined.

(** ** TaskEither: how the combinators derive from one another *)

(** X25. [map] derives from the monad: [chain((a) => of(g(a)))] is
    [map(g)], as is [chainEitherK((a) => E.right(g(a)))];
    [flatten(map(f)(ma))] is [chain(f)(ma)] and [flatten(of(ma))] is
    [ma]. *)
Theorem TaskEither_map_from_chain :
  forall (W E A B : Type) (g : A -> B) (f : A -> TaskEither.TaskEither W E B)
         (ma : TaskEither.TaskEither W E A) (w : W),
    TaskEither.chain (fun a => TaskEither.of_ (g a)) ma w = TaskEither.map g ma w
    /\ TaskEither.chainEitherKW (fun a => E.right (g a)) ma w = TaskEither.map g ma w
    /\ TaskEither.flatten (TaskEither.map f ma) w = TaskEither.chain f ma w
    /\ TaskEither.flatten (TaskEither.of_ ma) w = ma w.
Proof.
  intros W E A B g f ma w. te_unfold. unfold E.map.
  split; [|split; [|split; [|reflexivity]]];
    destruct (ma w) as [[[e|a]|r] w1]; reflexivity.
Qed.

(** X26. [fold] is the eliminator of a TaskEither: [fold(left, right)]
    changes nothing; [fold] after [bimap(h, g)] is [fold] with the
    handlers composed with [h] and [g]; and [getOrElse(onLeft)] of a
    [Success] yields its value without running [onLeft], of a
    [Failure(e)] it is [onLeft(e)]. *)
Theorem TaskEither_fold_fusion :
  forall (W E G A B C : Type) (onLeft : G -> T.Task W C) (onRight : B -> T.Task W C)
         (h : E -> G) (g : A -> B) (recover : E -> T.Task W A)
         (ma : TaskEither.TaskEither W E A) (a : A) (e : E) (w : W),
    TaskEither.fold TaskEither.left TaskEither.right ma w = ma w
    /\ TaskEither.fold onLeft onRight (TaskEither.bimap h g ma) w
       = TaskEither.fold (fun x => onLeft (h x)) (fun x => onRight (g x)) ma w
    /\ TaskEither.getOrElseW recover (TaskEither.right a) w = T.of_ a w
    /\ TaskEither.getOrElseW recover (TaskEither.left e) w = recover e w.
Proof.
  intros W E G A B C onLeft onRight h g recover ma a e w.
  unfold TaskEither.fold, TaskEither.getOrElseW. te_unfold. unfold E.bimap.
  split; [|split; [|split; reflexivity]];
    destruct (ma w) as [[[e1|a1]|r] w1]; reflexivity.
Qed.
